(** * SymEngine: canonical rationals and the generated MatchPy matcher

    A shallow embedding of [symengine/rational.cpp] and of the generated
    decision tree for the pattern [x**w], followed by the properties
    proved about them.

    Data as the code has it: GMP integers are [Z]; an [mpq] value
    ([rational_class]) is a pair of integers that GMP does not keep
    reduced by itself; [RCP<const Number>] is the variant type [Number];
    C++ exceptions and process aborts are the two failure constructors of
    [Result]. *)

From Stdlib Require Import ZArith List Bool Lia Znumtheory Zpow_facts.
From stdpp Require Import gmap strings.
Import ListNotations.

Local Open Scope string_scope.
Local Open Scope Z_scope.

(** ** Outcomes of a call *)

(** Ways the process can die that are not C++ exceptions: a failed
    [SYMENGINE_ASSERT], or one of GMP's arithmetic exceptions. *)
Inductive Fault : Set :=
| AssertionFailed
| GmpDivideByZero
| GmpSqrtOfNegative.

(** A call returns a value, throws [std::runtime_error(what)], or
    aborts. *)
Inductive Result (A : Type) : Type :=
| Ret (a : A)
| Throw (what : string)
| Abort (f : Fault).

Arguments Ret {A} a.
Arguments Throw {A} what.
Arguments Abort {A} f.

(** Sequencing stops at the first failure; [x ← m; k] is stdpp's
    notation for it. *)
#[global] Instance Result_bind : MBind Result := fun A B k m =>
  match m with
  | Ret a => k a
  | Throw w => Throw w
  | Abort f => Abort f
  end.

#[global] Instance Result_ret : MRet Result := fun A a => Ret a.

Module SymEngine.

(** ** The GMP boundary *)

(** [rational_class]: numerator and denominator as stored. *)
Record rational_class : Set := mpq { get_num : Z; get_den : Z }.

(** Modelled from the spec: [canonicalize] (GMP's [mpq_canonicalize]) is
    not part of the sources; it removes the common factor of numerator
    and denominator and makes the denominator positive.  GMP raises its
    division-by-zero exception on a zero denominator. *)
Definition reduce (x : rational_class) : rational_class :=
  let g := Z.gcd (get_num x) (get_den x) in
  let n := get_num x / g in
  let d := get_den x / g in
  if d <? 0 then mpq (- n) (- d) else mpq n d.

Definition canonicalize (x : rational_class) : Result rational_class :=
  if get_den x =? 0 then Abort GmpDivideByZero else Ret (reduce x).

(** GMP's [mpq] arithmetic returns reduced fractions. *)
Definition mpq_mul (a b : rational_class) : rational_class :=
  reduce (mpq (get_num a * get_num b) (get_den a * get_den b)).

Definition mpq_add (a b : rational_class) : rational_class :=
  reduce (mpq (get_num a * get_den b + get_num b * get_den a)
              (get_den a * get_den b)).

Definition mpq_neg (a : rational_class) : rational_class :=
  mpq (- get_num a) (get_den a).

Definition mpq_sub (a b : rational_class) : rational_class :=
  mpq_add a (mpq_neg b).

(** [mpz_fdiv_qr(q, r, n, d)]: floor division, remainder with the sign
    of [d]; GMP raises its division-by-zero exception for [d = 0]. *)
Definition mpz_fdiv_qr (n d : Z) : Result (Z * Z) :=
  if d =? 0 then Abort GmpDivideByZero else Ret (n / d, n mod d).

(** Floor of the [k]-th root of [n >= 0], one bit at a time from the
    top: the arithmetic GMP's root extraction performs. *)
Fixpoint iroot_bits (k n : Z) (bits : nat) (r : Z) : Z :=
  match bits with
  | O => r
  | S b =>
      let c := r + 2 ^ Z.of_nat b in
      if c ^ k <=? n then iroot_bits k n b c else iroot_bits k n b r
  end.

Definition iroot (k n : Z) : Z :=
  iroot_bits k n (Z.to_nat (Z.log2_up (n + 1))) 0.

(** Modelled from the spec: [mpz_root(rop, op, n)] of GMP sets [rop] to
    the truncated integer part of the [n]-th root of [op] and returns
    non-zero iff the root is exact.  GMP raises its sqrt-of-negative
    exception for an even root of a negative operand and its
    division-by-zero exception for [n = 0]. *)
Definition mpz_root (op n : Z) : Result (Z * bool) :=
  if (op <? 0) && Z.even n then Abort GmpSqrtOfNegative
  else if n =? 0 then Abort GmpDivideByZero
  else
    let rop := Z.sgn op * iroot n (Z.abs op) in
    Ret (rop, rop ^ n =? op).

(** [op] is an exact [k]-th power ([k >= 1]). *)
Definition is_kth_power (op k : Z) : bool :=
  if 0 <=? op then iroot k op ^ k =? op
  else if Z.odd k then iroot k (- op) ^ k =? - op
  else false.

(** Modelled from the spec: [mpz_perfect_power_p(op)] of GMP is non-zero
    iff there are integers [a] and [b > 1] with [op = a^b]; 0 and 1 are
    perfect powers, negative operands can only be odd powers. *)
Definition mpz_perfect_power_p (op : Z) : bool :=
  if Z.abs op <=? 1 then true
  else
    existsb (is_kth_power op)
            (map Z.of_nat (seq 2 (Z.to_nat (Z.log2 (Z.abs op))))).

(** What that test is to decide. *)
Definition perfect_power (op : Z) : Prop := exists a b, 1 < b /\ op = a ^ b.

(** [mpz_cmpabs(a, b)]: sign of [|a| - |b|]. *)
Definition mpz_cmpabs (a b : Z) : Z := Z.sgn (Z.abs a - Z.abs b).

(** [unsigned long] on an LP64 platform. *)
Definition ULONG_MAX : Z := 2 ^ 64 - 1.

Definition fits_ulong_p (z : Z) : bool := (0 <=? z) && (z <=? ULONG_MAX).

(** [get_ui]: the least significant bits of the magnitude. *)
Definition get_ui (z : Z) : Z := Z.abs z mod (ULONG_MAX + 1).

(** ** Numbers *)

(** The runtime variants of [Number] that this file produces. *)
Inductive Number : Set :=
| Integer (i : Z)
| Rational (i : rational_class)
| Complex (real_ imaginary_ : rational_class).

Definition integer (i : Z) : Number := Integer i.

(** Symbolic results ([RCP<const Basic>]) of the power functions: a
    number, the product-of-powers form handed to [Mul::from_dict], or a
    product left unevaluated. *)
#[warnings="-register-all"]
Inductive Basic : Set :=
| Num (n : Number)
| Mul_from_dict (coef : Number) (dict : list (Basic * Basic))
| Mul (a b : Basic).

(** [insert] into a [map_basic_basic]; only ever applied to the empty
    dictionary here. *)
Definition insert (d : list (Basic * Basic)) (k v : Basic)
  : list (Basic * Basic) := (k, v) :: d.

(** The imaginary unit [I]. *)
Definition I : Number := Complex (mpq 0 1) (mpq 1 1).

Definition real_part (a : Number) : rational_class :=
  match a with
  | Integer i => mpq i 1
  | Rational q => q
  | Complex re _ => re
  end.

Definition imaginary_part (a : Number) : rational_class :=
  match a with
  | Complex _ im => im
  | _ => mpq 0 1
  end.

(** The variant a reduced fraction is stored in. *)
Definition number_of_mpq (q : rational_class) : Number :=
  if get_den q =? 1 then Integer (get_num q) else Rational q.

Definition number_of_parts (re im : rational_class) : Number :=
  if get_num im =? 0 then number_of_mpq re else Complex re im.

(** Modelled from the spec: [Number::mul] / [mulnum] are not part of the
    sources; numbers are "combined multiplicatively", exactly, over the
    Gaussian rationals. *)
Definition mulnum (a b : Number) : Number :=
  let (ar, ai) := (real_part a, imaginary_part a) in
  let (br, bi) := (real_part b, imaginary_part b) in
  number_of_parts (mpq_sub (mpq_mul ar br) (mpq_mul ai bi))
                  (mpq_add (mpq_mul ar bi) (mpq_mul ai br)).

(** Modelled from the spec: [SymEngine::mul] is not part of the sources;
    two numbers are multiplied exactly, anything else stays a product. *)
Definition mul (a b : Basic) : Basic :=
  match a, b with
  | Num u, Num v => Num (mulnum u v)
  | _, _ => Mul a b
  end.

(** Modelled from the spec: [SymEngine::neg] is not part of the sources;
    it multiplies by minus one. *)
Definition neg (a : Basic) : Basic := mul (Num (Integer (- 1))) a.

(** Modelled from the spec: [Integer::powint] is not part of the
    sources; it is the exact closed form of an integer raised to an
    integer, a unit fraction for a negative exponent. *)
Definition powint (b n : Z) : Number :=
  if 0 <=? n then Integer (b ^ n)
  else
    let j := b ^ (- n) in
    number_of_mpq (mpq (Z.sgn j) (Z.abs j)).


(** Modelled from the spec: [I->pow(n)] for an integer [n] is not part
    of the sources; the powers of the imaginary unit have period 4. *)
Definition I_pow (n : Z) : Number :=
  let k := n mod 4 in
  if k =? 0 then Integer 1
  else if k =? 1 then I
  else if k =? 2 then Integer (- 1)
  else Complex (mpq 0 1) (mpq (- 1) 1).

(** Modelled from the spec: [i_nth_root(r, a, n)] is not part of the
    sources; exact integer [n]-th root extraction: it stores the
    truncated root and returns whether it is exact, and throws for
    [n = 0]. *)
Definition i_nth_root (a n : Z) : Result (bool * Z) :=
  if n =? 0 then Throw "i_nth_root: Can not find Zeroth root"
  else
    '(t, ret) ← mpz_root a n;
    Ret (ret, t).

Section Build.

(** Whether [SYMENGINE_ASSERT] is compiled in (debug builds) or expands
    to nothing. *)
Variable assertions : bool.

(** [Rational::is_canonical], lines 13-23. *)
Definition is_canonical (i : rational_class) : Result bool :=
  x ← canonicalize i;
  if get_den x =? 1 then Ret false
  else if negb (get_num x =? get_num i) then Ret false
  else if negb (get_den x =? get_den i) then Ret false
  else Ret true.

(** The constructor [Rational::Rational], lines 7-11, as reached through
    [make_rcp<const Rational>]. *)
Definition Rational_ctor (i : rational_class) : Result Number :=
  if assertions then
    ok ← is_canonical i;
    if ok : bool then Ret (Rational i) else Abort AssertionFailed
  else Ret (Rational i).

(** [Rational::from_mpq], lines 25-33. *)
Definition from_mpq (i : rational_class) : Result Number :=
  if get_den i =? 1 then Ret (integer (get_num i))
  else Rational_ctor i.

(** [Rational::from_two_ints(const Integer &, const Integer &)],
    lines 35-47. *)
Definition from_two_ints (n d : Z) : Result Number :=
  if d =? 0 then Throw "Rational: Division by zero."
  else
    q ← canonicalize (mpq n d);
    from_mpq q.

(** [Rational::from_two_ints(long, long)], lines 49-60. *)
Definition from_two_ints_long (n d : Z) : Result Number :=
  if d =? 0 then Throw "Rational: Division by zero."
  else
    q ← canonicalize (mpq n d);
    from_mpq q.

(** [Rational::is_perfect_power], lines 103-125. *)
Definition is_perfect_power (i : rational_class) (is_expected : bool) : bool :=
  let num := get_num i in
  if num =? 0 then true
  else if num =? 1 then mpz_perfect_power_p (get_den i)
  else
    let den := get_den i in
    let tail := mpz_perfect_power_p (num * den) in
    if negb is_expected then
      if mpz_cmpabs num den >? 0 then
        if negb (mpz_perfect_power_p den) then false else tail
      else
        if negb (mpz_perfect_power_p num) then false else tail
    else tail.

(** [Rational::nth_root], lines 127-142.  The output argument is passed
    in and handed back: [None] is a null [RCP]. *)
Definition nth_root (i : rational_class) (the_rat : option Number) (n : Z)
  : Result (bool * option Number) :=
  if n =? 0 then Throw "i_nth_root: Can not find Zeroth root"
  else
    '(r_num, ret) ← mpz_root (get_num i) n;
    if negb ret then Ret (false, the_rat)
    else
      '(r_den, ret) ← mpz_root (get_den i) n;
      if negb ret then Ret (false, the_rat)
      else
        r ← Rational_ctor (mpq r_num r_den);
        Ret (true, Some r).

(** [Rational::rpowrat], lines 166-186: reached when the root is not
    exact.  [i] is the exponent, [other] the integer base. *)
Definition rpowrat_surd (i : rational_class) (other : Z) : Result Basic :=
  let num := get_num i in
  let den := get_den i in
  '(q, r) ← mpz_fdiv_qr num den;
  let coef := powint other q in
  let surd : list (Basic * Basic) := [] in
  if (other <? 0) && (den =? 2) then
    let coef := mulnum coef I in
    if negb (other =? - 1) then
      e ← from_mpq (mpq r den);
      Ret (Mul_from_dict coef (insert surd (Num (integer (- other))) (Num e)))
    else Ret (Mul_from_dict coef surd)
  else
    e ← from_mpq (mpq r den);
    Ret (Mul_from_dict coef (insert surd (Num (integer other)) (Num e))).

(** [Rational::rpowrat], lines 148-187. *)
Definition rpowrat (i : rational_class) (other : Z) : Result Basic :=
  if negb (fits_ulong_p (get_den i)) then
    Throw "powrat: den of 'exp' does not fit ulong."
  else
    let exp := get_ui (get_den i) in
    if other <? 0 then
      '(ret, res) ← i_nth_root (- other) exp;
      if ret : bool then
        if exp mod 2 =? 0 then
          Ret (Num (mulnum (I_pow (get_num i)) (powint res (get_num i))))
        else Ret (neg (Num (powint res (get_num i))))
      else rpowrat_surd i other
    else
      '(ret, res) ← i_nth_root other exp;
      if ret : bool then Ret (Num (powint res (get_num i)))
      else rpowrat_surd i other.

(** [Rational::powrat], lines 144-146: [this] is the base, [other] the
    exponent; the left operand of [mul] is evaluated first. *)
Definition powrat (this other : rational_class) : Result Basic :=
  a ← rpowrat other (get_num this);
  b ← rpowrat (mpq_neg other) (get_den this);
  Ret (mul a b).

(** The same with the right operand evaluated first, which C++ also
    allows. *)
Definition powrat_right_first (this other : rational_class) : Result Basic :=
  b ← rpowrat (mpq_neg other) (get_den this);
  a ← rpowrat other (get_num this);
  Ret (mul a b).


End Build.

(** ** The remaining methods of [Rational] *)

(** [mpq_equal] of GMP, behind [operator==] on [rational_class]: it
    compares numerators and denominators as stored. *)
Definition mpq_equal (a b : rational_class) : bool :=
  (get_num a =? get_num b) && (get_den a =? get_den b).

(** [mpq_cmp] of GMP, behind [operator<] on [rational_class]: the sign
    of the cross product, which is the sign of the difference for
    positive denominators. *)
Definition mpq_cmp (a b : rational_class) : Z :=
  Z.sgn (get_num a * get_den b - get_num b * get_den a).

(** The same against an integer, behind [operator<] between a
    [rational_class] and an [integer_class]. *)
Definition mpq_cmp_z (a : rational_class) (z : Z) : Z :=
  Z.sgn (get_num a - z * get_den a).

(** [get_si] ([mpz_get_si]): the value when it fits a [long], otherwise
    the sign with the low 63 bits of the magnitude. *)
Definition get_si (z : Z) : Z :=
  if 0 <=? z then z mod 2 ^ 63 else - 1 - (- z - 1) mod 2 ^ 63.

(** [Rational::__eq__], lines 72-79. *)
Definition __eq__ (i : rational_class) (o : Basic) : bool :=
  match o with
  | Num (Rational s) => mpq_equal i s
  | _ => false
  end.

(** [Rational::compare], lines 81-93. *)
Definition compare (i : rational_class) (o : Basic) : Result Z :=
  match o with
  | Num (Rational s) =>
      if mpq_equal i s then Ret 0
      else Ret (if mpq_cmp i s <? 0 then - 1 else 1)
  | Num (Integer s) => Ret (if mpq_cmp_z i s <? 0 then - 1 else 1)
  | _ => Throw "unhandled comparison of Rational"
  end.

(** [get_num_den], lines 95-101: the two output arguments, as they
    stand after the call. *)
Definition get_num_den (rat : rational_class) : Number * Number :=
  (integer (get_num rat), integer (get_den rat)).

Section Hash.

(** The type tag [RATIONAL] and the template [hash_combine] live in
    headers that are not part of the sources; [hash_combine seed v] is
    the seed after mixing in [v]. *)
Variable RATIONAL : Z.
Variable hash_combine : Z -> Z -> Z.

(** [Rational::__hash__], lines 62-70. *)
Definition __hash__ (i : rational_class) : Z :=
  let seed := RATIONAL in
  let seed := hash_combine seed (get_si (get_num i)) in
  let seed := hash_combine seed (get_si (get_den i)) in
  seed.

End Hash.

(** The [what()] strings of the errors the specification lists:
    division by zero, zeroth root, unsupported comparison. *)
Definition listed_errors : list string :=
  [ "Rational: Division by zero.";
    "i_nth_root: Can not find Zeroth root";
    "unhandled comparison of Rational" ].

End SymEngine.

Module MatchPy.

(** ** Expression nodes, as far as the matcher looks at them *)

(** Type tags of the compound nodes. *)
Inductive TypeID : Set := ADD | MUL | POW.

Definition TypeID_eqb (a b : TypeID) : bool :=
  match a, b with
  | ADD, ADD | MUL, MUL | POW, POW => true
  | _, _ => false
  end.

(** A node: an atom, or a type tag over an ordered sequence of
    children. *)
#[warnings="-register-all"]
Inductive Basic : Set :=
| Symbol (name : string)
| Integer (i : Z)
| Compound (type_id : TypeID) (args : list Basic).

Definition symbol (name : string) : Basic := Symbol name.
Definition integer (i : Z) : Basic := Integer i.

(** Modelled from the spec: the constructors [add] and [pow] used by the
    test file are not part of the sources; the sum node and the power
    node over their two operands, base first. *)
Definition add (a b : Basic) : Basic := Compound ADD [a; b].
Definition pow (a b : Basic) : Basic := Compound POW [a; b].

(** The symbols of the generated test file. *)
Definition x : Basic := symbol "x".
Definition y : Basic := symbol "y".

(** [is_a<Pow>]. *)
Definition is_a_Pow (b : Basic) : bool :=
  match b with
  | Compound POW _ => true
  | _ => false
  end.

(** [Basic::__eq__]: structural equality. *)
Fixpoint __eq__ (a b : Basic) {struct a} : bool :=
  match a, b with
  | Symbol n, Symbol m => String.eqb n m
  | Integer i, Integer j => i =? j
  | Compound s u, Compound t v =>
      TypeID_eqb s t &&
      (fix all2 (u v : list Basic) {struct u} : bool :=
         match u, v with
         | [], [] => true
         | a' :: u', b' :: v' => __eq__ a' b' && all2 u' v'
         | _, _ => false
         end) u v
  | _, _ => false
  end.

(** ** Work queues and substitutions *)

Definition Deque : Set := list Basic.

(** Modelled from the spec: [get_deque] is not part of the sources; the
    ordered children of a compound node, as a nested queue. *)
Definition get_deque (b : Basic) : Deque :=
  match b with
  | Compound _ args => args
  | _ => []
  end.

Definition push_front (d : Deque) (b : Basic) : Deque := b :: d.

(** [front()] followed by [pop_front()]; [None] on an empty queue, which
    the size tests of the generated code rule out. *)
Definition pop_front (d : Deque) : option (Basic * Deque) :=
  match d with
  | b :: d' => Some (b, d')
  | [] => None
  end.

Definition size (d : Deque) : Z := Z.of_nat (length d).

(** [subjects[0]]. *)
Definition at0 (d : Deque) : option Basic := List.head d.

Abbreviation Substitution := (gmap string Basic).

(** Modelled from the spec: [try_add_variable] is not part of the
    sources; it binds a free name and returns 0, accepts a name already
    bound to a structurally equal value, and returns non-zero, leaving
    the substitution alone, when the name is bound to a different
    value. *)
Definition try_add_variable (subst : Substitution) (name : string)
    (replacement : Basic) : Z * Substitution :=
  match subst !! name with
  | None => (0, <[name := replacement]> subst)
  | Some existing =>
      if __eq__ existing replacement then (0, subst) else (1, subst)
  end.

(** [generator<tuple<int, Substitution>>]. *)
Definition generator : Type := list (Z * Substitution).

Definition push_back (g : generator) (r : Z * Substitution) : generator :=
  (g ++ [r])%list.

(** ** The decision tree for [x**w]

    Each block takes the queues it can see and the results so far and
    hands back the queue it mutates together with the results. *)

(** States 2220 and 2221, lines 40-48: both queues exhausted. *)
Definition state2220 (subjects subjects2 : Deque) (subst1 : Substitution)
    (result : generator) : generator :=
  if size subjects2 =? 0 then
    if size subjects =? 0 then
      match subst1 !! "i2" with
      | Some v =>
          let tmp_subst : Substitution := <["w" := v]> ∅ in
          push_back result (0, tmp_subst)
      | None => result
      end
    else result
  else result.

(** State 2219, lines 34-51. *)
Definition state2219 (subjects subjects2 : Deque) (subst0 : Substitution)
    (result : generator) : Deque * generator :=
  if size subjects2 >=? 1 then
    match pop_front subjects2 with
    | Some (tmp4, subjects2) =>
        let subst1 := subst0 in
        let '(rc, subst1) := try_add_variable subst1 "i2" tmp4 in
        let result :=
          if rc =? 0 then state2220 subjects subjects2 subst1 result
          else result in
        (push_front subjects2 tmp4, result)
    | None => (subjects2, result)
    end
  else (subjects2, result).

(** State 2218, lines 30-53. *)
Definition state2218 (subjects subjects2 : Deque) (subst0 : Substitution)
    (result : generator) : Deque * generator :=
  if (size subjects2 >=? 1)
     && match at0 subjects2 with Some b => __eq__ b x | None => false end
  then
    match pop_front subjects2 with
    | Some (tmp3, subjects2) =>
        let '(subjects2, result) :=
          state2219 subjects subjects2 subst0 result in
        (push_front subjects2 tmp3, result)
    | None => (subjects2, result)
    end
  else (subjects2, result).

(** State 2217, lines 25-55. *)
Definition state2217 (subjects : Deque) (subst0 : Substitution)
    (result : generator) : Deque * generator :=
  if (size subjects >=? 1)
     && match at0 subjects with Some b => is_a_Pow b | None => false end
  then
    match pop_front subjects with
    | Some (tmp1, subjects) =>
        let subjects2 := get_deque tmp1 in
        let '(_, result) := state2218 subjects subjects2 subst0 result in
        (push_front subjects tmp1, result)
    | None => (subjects, result)
    end
  else (subjects, result).

(** [match_root], lines 18-57, with the outer queue as it stands at the
    [return]. *)
Definition match_root_run (subject : Basic) : Deque * generator :=
  let result : generator := [] in
  let subjects : Deque := push_front [] subject in
  let subst0 : Substitution := ∅ in
  state2217 subjects subst0 result.

Definition match_root (subject : Basic) : generator :=
  snd (match_root_run subject).

End MatchPy.

(** * Properties of the canonical rational *)

Section RationalFacts.

Import SymEngine.

(** ** Reduction to lowest terms *)

Lemma gcd_pos_of_den (n d : Z) : d <> 0 -> 0 < Z.gcd n d.
Proof.
  intros Hd.
  pose proof (Z.gcd_nonneg n d) as Hge.
  destruct (Z.eq_dec (Z.gcd n d) 0) as [E | NE]; [| lia].
  apply Z.gcd_eq_0_r in E. contradiction.
Qed.

Lemma reduce_parts (n d : Z) :
  d <> 0 ->
  let g := Z.gcd n d in
  n = g * (n / g) /\ d = g * (d / g) /\ Z.gcd (n / g) (d / g) = 1 /\ d / g <> 0.
Proof.
  intros Hd g.
  pose proof (gcd_pos_of_den n d Hd) as Hg. fold g in Hg.
  assert (Hn : n = g * (n / g)).
  { apply Z_div_exact_full_2; [lia |]. apply Z.mod0_divide, Z.gcd_divide_l. }
  assert (Hd' : d = g * (d / g)).
  { apply Z_div_exact_full_2; [lia |]. apply Z.mod0_divide, Z.gcd_divide_r. }
  repeat split; trivial.
  - apply Z.gcd_div_gcd; [lia | reflexivity].
  - intros E. rewrite E in Hd'. lia.
Qed.

Lemma reduce_den_pos (q : rational_class) :
  get_den q <> 0 -> 0 < get_den (reduce q).
Proof.
  intros Hd. destruct q as [n d]; simpl in *.
  destruct (reduce_parts n d Hd) as (_ & _ & _ & Hnz).
  unfold reduce; simpl.
  destruct (Z.ltb_spec (d / Z.gcd n d) 0); simpl; lia.
Qed.

Lemma reduce_coprime (q : rational_class) :
  get_den q <> 0 -> Z.gcd (get_num (reduce q)) (get_den (reduce q)) = 1.
Proof.
  intros Hd. destruct q as [n d]; simpl in *.
  destruct (reduce_parts n d Hd) as (_ & _ & Hg & _).
  unfold reduce; simpl.
  destruct (Z.ltb_spec (d / Z.gcd n d) 0); simpl; trivial.
  now rewrite Z.gcd_opp_l, Z.gcd_opp_r.
Qed.

(** Reduction keeps the value of the fraction. *)
Lemma reduce_value (q : rational_class) :
  get_den q <> 0 ->
  get_num (reduce q) * get_den q = get_num q * get_den (reduce q).
Proof.
  intros Hd. destruct q as [n d]; simpl in *.
  destruct (reduce_parts n d Hd) as (Hn & Hd' & _ & _).
  unfold reduce; simpl.
  set (g := Z.gcd n d) in *.
  destruct (Z.ltb_spec (d / g) 0); simpl.
  - rewrite Hn at 2. rewrite Hd' at 1. ring.
  - rewrite Hn at 2. rewrite Hd' at 1. ring.
Qed.

Lemma reduce_fixed (q : rational_class) :
  0 < get_den q -> Z.gcd (get_num q) (get_den q) = 1 -> reduce q = q.
Proof.
  intros Hd Hg. destruct q as [n d]; simpl in *.
  unfold reduce; simpl. rewrite Hg, !Z.div_1_r.
  destruct (Z.ltb_spec d 0); [lia | reflexivity].
Qed.

Lemma reduce_idempotent (q : rational_class) :
  get_den q <> 0 -> reduce (reduce q) = reduce q.
Proof.
  intros Hd. apply reduce_fixed.
  - now apply reduce_den_pos.
  - now apply reduce_coprime.
Qed.

(** What [is_canonical] decides: lowest terms, positive denominator, and
    not an integer. *)
Lemma is_canonical_iff (i : rational_class) :
  is_canonical i = Ret true <->
  1 < get_den i /\ Z.gcd (get_num i) (get_den i) = 1.
Proof.
  unfold is_canonical, canonicalize.
  destruct (Z.eqb_spec (get_den i) 0) as [E0 | N0].
  { simpl. split; [discriminate | lia]. }
  cbn [mbind Result_bind].
  pose proof (reduce_den_pos i N0) as Hpos.
  pose proof (reduce_coprime i N0) as Hco.
  destruct (Z.eqb_spec (get_den (reduce i)) 1) as [E1 | N1].
  { split; [discriminate |]. intros [Hd Hg].
    rewrite reduce_fixed in E1 by (trivial; lia). lia. }
  destruct (Z.eqb_spec (get_num (reduce i)) (get_num i)) as [En | Nn]; cbn [negb].
  2:{ split; [discriminate |]. intros [Hd Hg].
      rewrite reduce_fixed in Nn by (trivial; lia). congruence. }
  destruct (Z.eqb_spec (get_den (reduce i)) (get_den i)) as [Ed | Nd]; cbn [negb].
  2:{ split; [discriminate |]. intros [Hd Hg].
      rewrite reduce_fixed in Nd by (trivial; lia). congruence. }
  split; [intros _ | reflexivity].
  rewrite <- En, <- Ed. split; [lia | trivial].
Qed.

Lemma Rational_ctor_canonical (assertions : bool) (i : rational_class) :
  is_canonical i = Ret true ->
  Rational_ctor assertions i = Ret (Rational i).
Proof.
  intros H. unfold Rational_ctor. rewrite H. now destruct assertions.
Qed.

(** ** Construction *)

(** C1. For every pair of integers [n], [d] with [d <> 0],
    [from_two_ints] returns a number [v] holding the reduced fraction
    [q] of [n/d]: the denominator of [q] is positive, numerator and
    denominator are coprime, [q] has the value of [n/d], [v] is an
    [Integer] whenever the denominator is 1 and a [Rational] only with
    a canonical fraction, and canonicalizing [q] again changes nothing.
    Both overloads agree. *)
Theorem from_two_ints_canonical (assertions : bool) (n d : Z) :
  d <> 0 ->
  exists (v : Number) (q : rational_class),
    from_two_ints assertions n d = Ret v /\
    from_two_ints_long assertions n d = Ret v /\
    canonicalize (mpq n d) = Ret q /\
    v = number_of_mpq q /\
    0 < get_den q /\
    Z.gcd (get_num q) (get_den q) = 1 /\
    get_num q * d = n * get_den q /\
    (get_den q = 1 -> v = Integer (get_num q)) /\
    (forall r, v = Rational r ->
       r = q /\ get_den r <> 1 /\ is_canonical r = Ret true) /\
    canonicalize q = Ret q.
Proof.
  intros Hd.
  set (q := reduce (mpq n d)).
  assert (Hpos : 0 < get_den q) by (apply reduce_den_pos; trivial).
  assert (Hco : Z.gcd (get_num q) (get_den q) = 1)
    by (apply reduce_coprime; trivial).
  assert (Hcan : canonicalize (mpq n d) = Ret q).
  { unfold canonicalize; simpl. destruct (Z.eqb_spec d 0); [lia | reflexivity]. }
  assert (Hfm : from_mpq assertions q = Ret (number_of_mpq q)).
  { unfold from_mpq, number_of_mpq, integer.
    destruct (Z.eqb_spec (get_den q) 1) as [E | N]; [reflexivity |].
    apply Rational_ctor_canonical, is_canonical_iff. split; [lia | trivial]. }
  exists (number_of_mpq q), q.
  assert (Hrun : from_two_ints assertions n d = Ret (number_of_mpq q)).
  { unfold from_two_ints. destruct (Z.eqb_spec d 0); [lia |].
    rewrite Hcan. exact Hfm. }
  repeat split; trivial.
  - exact (reduce_value (mpq n d) Hd).
  - intros E. unfold number_of_mpq. now rewrite E.
  - unfold number_of_mpq in H.
    destruct (get_den q =? 1); [discriminate | congruence].
  - unfold number_of_mpq in H.
    destruct (Z.eqb_spec (get_den q) 1); [discriminate |].
    injection H as <-. trivial.
  - unfold number_of_mpq in H.
    destruct (Z.eqb_spec (get_den q) 1); [discriminate |].
    injection H as <-. apply is_canonical_iff. split; [lia | trivial].
  - unfold canonicalize. destruct (Z.eqb_spec (get_den q) 0); [lia |].
    f_equal. apply reduce_fixed; trivial.
Qed.

Lemma from_two_ints_canonical_witness :
  exists (v : Number) (q : rational_class),
    from_two_ints true 6 (- 4) = Ret v /\
    from_two_ints_long true 6 (- 4) = Ret v /\
    canonicalize (mpq 6 (- 4)) = Ret q /\
    v = number_of_mpq q /\
    0 < get_den q /\
    Z.gcd (get_num q) (get_den q) = 1 /\
    get_num q * (- 4) = 6 * get_den q /\
    (get_den q = 1 -> v = Integer (get_num q)) /\
    (forall r, v = Rational r ->
       r = q /\ get_den r <> 1 /\ is_canonical r = Ret true) /\
    canonicalize q = Ret q.
Proof. apply (from_two_ints_canonical true 6 (- 4)). lia. Defined.

(** C2, as the code has it. [from_mpq] does not reduce: for a fraction
    already in lowest terms with positive denominator it returns an
    [Integer] when the denominator is 1 and otherwise a [Rational]
    holding that very fraction. *)
Theorem from_mpq_of_reduced (assertions : bool) (f : rational_class) :
  0 < get_den f ->
  Z.gcd (get_num f) (get_den f) = 1 ->
  reduce f = f /\
  from_mpq assertions f = Ret (number_of_mpq f) /\
  (get_den f = 1 -> from_mpq assertions f = Ret (Integer (get_num f))) /\
  (get_den f <> 1 -> from_mpq assertions f = Ret (Rational f)).
Proof.
  intros Hd Hg.
  assert (H : from_mpq assertions f = Ret (number_of_mpq f)).
  { unfold from_mpq, number_of_mpq, integer.
    destruct (Z.eqb_spec (get_den f) 1); [reflexivity |].
    apply Rational_ctor_canonical, is_canonical_iff. split; [lia | trivial]. }
  split; [now apply reduce_fixed |]. split; [exact H |].
  rewrite H. unfold number_of_mpq.
  split; intros E; destruct (Z.eqb_spec (get_den f) 1); congruence.
Qed.

Lemma from_mpq_of_reduced_witness :
  reduce (mpq 3 2) = mpq 3 2 /\
  from_mpq true (mpq 3 2) = Ret (number_of_mpq (mpq 3 2)) /\
  (get_den (mpq 3 2) = 1 ->
   from_mpq true (mpq 3 2) = Ret (Integer (get_num (mpq 3 2)))) /\
  (get_den (mpq 3 2) <> 1 -> from_mpq true (mpq 3 2) = Ret (Rational (mpq 3 2))).
Proof. apply (from_mpq_of_reduced true (mpq 3 2)); reflexivity. Defined.

(** C2 as stated fails: handed 2/4, [from_mpq] keeps 2/4 in a release
    build and trips the constructor's assertion in a debug build; in
    neither does it return the reduced fraction 1/2.  The same happens
    for a negative denominator and for 4/2, which reduces to an
    integer. *)
Lemma from_mpq_does_not_reduce :
  reduce (mpq 2 4) = mpq 1 2 /\
  from_mpq false (mpq 2 4) = Ret (Rational (mpq 2 4)) /\
  from_mpq true (mpq 2 4) = Abort AssertionFailed /\
  from_mpq false (mpq 2 4) <> Ret (number_of_mpq (reduce (mpq 2 4))) /\
  from_mpq true (mpq 2 4) <> Ret (number_of_mpq (reduce (mpq 2 4))) /\
  from_mpq false (mpq 1 (- 2)) = Ret (Rational (mpq 1 (- 2))) /\
  from_mpq false (mpq 4 2) = Ret (Rational (mpq 4 2)).
Proof. repeat split; try reflexivity; discriminate. Qed.

(** ** Integer roots and perfect powers *)

Lemma iroot_bits_spec (k n : Z) (bits : nat) :
  0 < k ->
  forall r, 0 <= r -> r ^ k <= n < (r + 2 ^ Z.of_nat bits) ^ k ->
  let s := iroot_bits k n bits r in
  r <= s /\ s ^ k <= n < (s + 1) ^ k.
Proof.
  intros Hk. induction bits as [| b IH]; intros r Hr Hinv.
  - simpl in *. split; [lia | exact Hinv].
  - cbn [iroot_bits].
    assert (E : 2 ^ Z.of_nat (S b) = 2 ^ Z.of_nat b + 2 ^ Z.of_nat b).
    { rewrite Nat2Z.inj_succ, Z.pow_succ_r by lia. lia. }
    assert (Hp : 0 < 2 ^ Z.of_nat b) by (apply Z.pow_pos_nonneg; lia).
    destruct (Z.leb_spec ((r + 2 ^ Z.of_nat b) ^ k) n) as [Hle | Hgt].
    + destruct (IH (r + 2 ^ Z.of_nat b)) as [H1 H2]; [lia | |].
      * split; [exact Hle |]. rewrite <- Z.add_assoc, <- E. apply Hinv.
      * split; [lia | exact H2].
    + apply IH; [exact Hr |]. split; [apply Hinv | exact Hgt].
Qed.

Lemma iroot_spec (k n : Z) :
  0 < k -> 0 <= n ->
  0 <= iroot k n /\ iroot k n ^ k <= n < (iroot k n + 1) ^ k.
Proof.
  intros Hk Hn. unfold iroot.
  pose proof (Z.log2_up_nonneg (n + 1)) as Hl.
  destruct (iroot_bits_spec k n (Z.to_nat (Z.log2_up (n + 1))) Hk 0) as [H1 H2].
  - lia.
  - rewrite Z.pow_0_l by lia. split; [lia |].
    rewrite Z2Nat.id, Z.add_0_l by lia.
    assert (Hb : n + 1 <= 2 ^ Z.log2_up (n + 1))
      by (apply Z.log2_up_le_pow2; lia).
    assert (Hm : (2 ^ Z.log2_up (n + 1)) ^ 1 <= (2 ^ Z.log2_up (n + 1)) ^ k)
      by (apply Z.pow_le_mono_r; lia).
    rewrite Z.pow_1_r in Hm. lia.
  - split; [exact H1 | exact H2].
Qed.

Lemma iroot_of_power (k a : Z) : 0 < k -> 0 <= a -> iroot k (a ^ k) = a.
Proof.
  intros Hk Ha.
  assert (Hn : 0 <= a ^ k) by (apply Z.pow_nonneg; lia).
  destruct (iroot_spec k (a ^ k) Hk Hn) as (H0 & Hlo & Hhi).
  set (r := iroot k (a ^ k)) in *.
  destruct (Z.lt_total r a) as [Hlt | [E | Hgt]]; trivial.
  - assert ((r + 1) ^ k <= a ^ k) by (apply Z.pow_le_mono_l; lia). lia.
  - assert (a ^ k < r ^ k) by (apply Z.pow_lt_mono_l; lia). lia.
Qed.

(** The truncated root is exact precisely when the operand is an
    [n]-th power, provided the operand is not negative or [n] is odd. *)
Lemma signed_root_exact (op n : Z) :
  0 < n -> 0 <= op \/ Z.odd n = true ->
  (Z.sgn op * iroot n (Z.abs op)) ^ n = op <-> exists a, a ^ n = op.
Proof.
  intros Hn Hdom. split; [eauto |]. intros [a Ha].
  assert (Habs : Z.abs a ^ n = Z.abs op) by (rewrite <- Z.abs_pow; congruence).
  rewrite <- Habs, iroot_of_power by lia.
  destruct (Z.lt_trichotomy op 0) as [Hneg | [E0 | Hpos]].
  - destruct Hdom as [? | Hodd]; [lia |]. apply Z.odd_spec in Hodd.
    rewrite Z.sgn_neg by trivial.
    replace (-1 * Z.abs a) with (- Z.abs a) by lia.
    rewrite Z.pow_opp_odd, Habs by trivial. lia.
  - rewrite E0. simpl. apply Z.pow_0_l. lia.
  - rewrite Z.sgn_pos, Z.mul_1_l, Habs by trivial. lia.
Qed.

Lemma is_kth_power_iff (op k : Z) :
  0 < k -> is_kth_power op k = true <-> exists a, a ^ k = op.
Proof.
  intros Hk. unfold is_kth_power.
  destruct (Z.leb_spec 0 op) as [Hnn | Hneg].
  - rewrite Z.eqb_eq, <- (signed_root_exact op k Hk (or_introl Hnn)).
    destruct (Z.eq_dec op 0) as [-> | N0].
    + change (Z.sgn 0 * iroot k (Z.abs 0)) with 0.
      replace (iroot k 0) with 0; [tauto |].
      symmetry. rewrite <- (Z.pow_0_l k) at 1 by lia.
      apply iroot_of_power; lia.
    + rewrite Z.sgn_pos, Z.abs_eq, Z.mul_1_l by lia. tauto.
  - destruct (Z.odd k) eqn:Hodd.
    + rewrite Z.eqb_eq, <- (signed_root_exact op k Hk (or_intror Hodd)).
      rewrite Z.sgn_neg, Z.abs_neq by lia.
      replace (-1 * iroot k (- op)) with (- iroot k (- op)) by lia.
      rewrite Z.pow_opp_odd by (now apply Z.odd_spec). lia.
    + split; [discriminate |]. intros [a Ha]. exfalso.
      assert (He : Z.Even k).
      { apply Z.even_spec. rewrite <- Z.negb_odd, Hodd. reflexivity. }
      pose proof (Z.pow_even_nonneg a k He). lia.
Qed.

(** The perfect-power test decides the existence of [a] and [b > 1]
    with [op = a^b]. *)
Lemma mpz_perfect_power_p_iff (op : Z) :
  mpz_perfect_power_p op = true <-> perfect_power op.
Proof.
  unfold mpz_perfect_power_p, perfect_power.
  destruct (Z.leb_spec (Z.abs op) 1) as [Hsmall | Hbig].
  { split; [intros _ | reflexivity].
    assert (op = -1 \/ op = 0 \/ op = 1) as [-> | [-> | ->]] by lia.
    - exists (-1), 3. split; [lia | reflexivity].
    - exists 0, 2. split; [lia | reflexivity].
    - exists 1, 2. split; [lia | reflexivity]. }
  rewrite existsb_exists. split.
  - intros (k & Hin & Hk). apply in_map_iff in Hin as (m & <- & Hm).
    apply in_seq in Hm.
    apply is_kth_power_iff in Hk as [a Ha]; [| lia].
    exists a, (Z.of_nat m). split; [lia | congruence].
  - intros (a & b & Hb & ->). exists b. split.
    + apply in_map_iff. exists (Z.to_nat b). split; [lia |].
      apply in_seq.
      assert (H2 : 2 <= Z.abs a).
      { destruct (Z.le_gt_cases 2 (Z.abs a)); trivial. exfalso.
        rewrite Z.abs_pow in Hbig.
        assert (Z.abs a = 0 \/ Z.abs a = 1) as [E | E] by lia;
          rewrite E in Hbig.
        - rewrite Z.pow_0_l in Hbig; lia.
        - rewrite Z.pow_1_l in Hbig; lia. }
      assert (H3 : 2 ^ b <= Z.abs (a ^ b)).
      { rewrite Z.abs_pow. apply Z.pow_le_mono_l. lia. }
      apply Z.log2_le_pow2 in H3; lia.
    + apply is_kth_power_iff; [lia | eauto].
Qed.

(** What [mpz_root] returns where GMP defines it. *)
Lemma mpz_root_defined (op n : Z) :
  0 < n -> 0 <= op \/ Z.odd n = true ->
  exists rop exact,
    mpz_root op n = Ret (rop, exact) /\
    rop = Z.sgn op * iroot n (Z.abs op) /\
    (exact = true <-> exists a, a ^ n = op) /\
    (exact = true -> rop ^ n = op).
Proof.
  intros Hn Hdom. unfold mpz_root.
  assert (Hg : (op <? 0) && Z.even n = false).
  { destruct Hdom as [H | H].
    - destruct (Z.ltb_spec op 0); [lia | reflexivity].
    - rewrite <- Z.negb_odd, H. apply andb_false_r. }
  rewrite Hg. destruct (Z.eqb_spec n 0); [lia |].
  eexists _, _. split; [reflexivity |]. split; [reflexivity |].
  rewrite Z.eqb_eq. split; [| trivial].
  apply signed_root_exact; trivial.
Qed.

(** ** Exact roots of a rational *)

Lemma divide_pow_self (g a n : Z) : 0 < n -> (g | a) -> (g | a ^ n).
Proof.
  intros Hn Hg. replace n with (Z.succ (n - 1)) by lia.
  rewrite Z.pow_succ_r by lia. now apply Z.divide_mul_l.
Qed.

Lemma roots_coprime (a b n : Z) :
  0 < n -> Z.gcd (a ^ n) (b ^ n) = 1 -> Z.gcd a b = 1.
Proof.
  intros Hn Hco.
  pose proof (Z.gcd_nonneg a b) as Hge.
  assert (Hd : (Z.gcd a b | 1)).
  { rewrite <- Hco. apply Z.gcd_greatest; apply divide_pow_self; trivial.
    - apply Z.gcd_divide_l.
    - apply Z.gcd_divide_r. }
  apply Z.divide_1_r_nonneg in Hd; trivial.
Qed.

Lemma root_of_large (c n d : Z) : 0 < n -> 0 <= c -> c ^ n = d -> 1 < d -> 1 < c.
Proof.
  intros Hn Hc Hp Hd.
  destruct (Z.lt_ge_cases 1 c); trivial. exfalso.
  assert (c = 0 \/ c = 1) as [-> | ->] by lia.
  - rewrite Z.pow_0_l in Hp; lia.
  - rewrite Z.pow_1_l in Hp; lia.
Qed.

(** Where GMP's root is defined (numerator not negative, or odd degree)
    [nth_root] does what C3 says: it answers [true] exactly when both
    parts are [n]-th powers, then stores a canonical [Rational] whose
    [n]-th power is the input, and otherwise leaves the output alone. *)
Lemma nth_root_where_defined (assertions : bool) (r : rational_class)
    (the_rat : option Number) (n : Z) :
  is_canonical r = Ret true ->
  1 <= n ->
  0 <= get_num r \/ Z.odd n = true ->
  exists (ret : bool) (out : option Number),
    nth_root assertions r the_rat n = Ret (ret, out) /\
    (ret = true <->
       (exists a, a ^ n = get_num r) /\ (exists b, b ^ n = get_den r)) /\
    (ret = false -> out = the_rat) /\
    (ret = true ->
       exists q, out = Some (Rational q) /\
                 is_canonical q = Ret true /\
                 get_num q ^ n = get_num r /\
                 get_den q ^ n = get_den r).
Proof.
  intros Hcan Hn Hdom. apply is_canonical_iff in Hcan as [Hden Hco].
  unfold nth_root. destruct (Z.eqb_spec n 0); [lia |].
  destruct (mpz_root_defined (get_num r) n) as (rn & en & -> & _ & Hen & Hpn);
    [lia | trivial |].
  cbn [mbind Result_bind].
  destruct en; cbn [negb].
  2:{ exists false, the_rat. split; [reflexivity |]. split; [| split; trivial].
      - split; [discriminate |]. intros [Ha _]. now apply Hen.
      - discriminate. }
  destruct (mpz_root_defined (get_den r) n) as (rd & ed & -> & Hrd & Hed & Hpd);
    [lia | left; lia |].
  cbn [mbind Result_bind].
  destruct ed; cbn [negb].
  2:{ exists false, the_rat. split; [reflexivity |]. split; [| split; trivial].
      - split; [discriminate |]. intros [_ Hb]. now apply Hed.
      - discriminate. }
  specialize (Hpn eq_refl). specialize (Hpd eq_refl).
  assert (Hrd0 : 0 <= rd).
  { rewrite Hrd, Z.sgn_pos, Z.mul_1_l by lia. apply iroot_spec; lia. }
  assert (Hq : is_canonical (mpq rn rd) = Ret true).
  { apply is_canonical_iff; simpl. split.
    - apply (root_of_large rd n (get_den r)); trivial; lia.
    - apply (roots_coprime rn rd n); [lia |]. now rewrite Hpn, Hpd. }
  rewrite (Rational_ctor_canonical assertions _ Hq).
  cbn [mbind Result_bind].
  exists true, (Some (Rational (mpq rn rd))).
  split; [reflexivity |]. split; [| split].
  - split; [intros _ | reflexivity]. split; [now apply Hen | now apply Hed].
  - discriminate.
  - intros _. exists (mpq rn rd). simpl. repeat split; trivial.
Qed.

(** The case [nth_root] misses: an even root of a negative numerator
    reaches GMP's [mpz_root], which raises its exception. *)
Lemma nth_root_negative_even (assertions : bool) (r : rational_class)
    (the_rat : option Number) (n : Z) :
  get_num r < 0 -> n <> 0 -> Z.even n = true ->
  nth_root assertions r the_rat n = Abort GmpSqrtOfNegative.
Proof.
  intros Hneg Hn He. unfold nth_root, mpz_root.
  destruct (Z.eqb_spec n 0); [lia |].
  destruct (Z.ltb_spec (get_num r) 0); [| lia].
  rewrite He. reflexivity.
Qed.

(** C3 at the failing input: -1/4 is a canonical [Rational], its
    numerator has no integer square root, and yet [nth_root] with
    degree 2 does not return [false]: the process dies in GMP. *)
Theorem nth_root_aborts_on_negative_even :
  is_canonical (mpq (- 1) 4) = Ret true /\
  ~ (exists a, a ^ 2 = get_num (mpq (- 1) 4)) /\
  nth_root false (mpq (- 1) 4) None 2 = Abort GmpSqrtOfNegative /\
  nth_root true (mpq (- 1) 4) None 2 = Abort GmpSqrtOfNegative.
Proof.
  split; [reflexivity |]. split; [| split; reflexivity].
  intros [a Ha]. simpl in Ha. nia.
Qed.

(** ** The perfect-power test *)

(** A factor of a [k]-th power that is coprime to its cofactor is
    itself a [k]-th power. *)
Lemma coprime_factor_is_power (a b c k : Z) :
  0 < a -> 0 < b -> 0 < c -> 0 < k ->
  Z.gcd a b = 1 -> a * b = c ^ k ->
  exists x, 0 < x /\ a = x ^ k.
Proof.
  intros Ha Hb Hc Hk Hco Hprod.
  set (g := Z.gcd a c).
  assert (Hg : 0 < g) by (apply gcd_pos_of_den; lia).
  destruct (reduce_parts a c ltac:(lia)) as (Ea & Ec & Hco' & _).
  fold g in Ea, Ec, Hco'.
  set (a' := a / g) in *. set (c' := c / g) in *.
  clearbody a' c' g.
  assert (Ha' : 0 < a') by nia.
  assert (Hgk : g ^ k = g * g ^ (k - 1)).
  { replace k with (Z.succ (k - 1)) at 1 by lia.
    apply Z.pow_succ_r. lia. }
  assert (Hp : 0 < g ^ (k - 1)) by (apply Z.pow_pos_nonneg; lia).
  assert (Hcancel : a' * b = g ^ (k - 1) * c' ^ k).
  { apply (Z.mul_cancel_l _ _ g); [lia |].
    transitivity (a * b); [rewrite Ea; ring |].
    rewrite Hprod, Ec, Z.pow_mul_l, Hgk. ring. }
  assert (H1 : (a' | g ^ (k - 1))).
  { apply (Z.gauss a' (c' ^ k)).
    - exists b. rewrite (Z.mul_comm b a'), Hcancel. ring.
    - apply Z.coprime_pow_r; [lia | exact Hco']. }
  assert (Hgb : Z.gcd g b = 1).
  { pose proof (Z.gcd_nonneg g b).
    assert (Hd : (Z.gcd g b | 1)).
    { rewrite <- Hco. apply Z.gcd_greatest.
      - apply Z.divide_trans with g; [apply Z.gcd_divide_l |].
        exists a'. lia.
      - apply Z.gcd_divide_r. }
    apply Z.divide_1_r_nonneg in Hd; trivial. }
  assert (H2 : (g ^ (k - 1) | a')).
  { apply (Z.gauss (g ^ (k - 1)) b).
    - exists (c' ^ k). rewrite (Z.mul_comm b a'), Hcancel. ring.
    - apply Z.coprime_pow_l; [lia | exact Hgb]. }
  exists g. split; [exact Hg |].
  rewrite Ea, Hgk. f_equal.
  apply Z.divide_antisym_nonneg; trivial; lia.
Qed.

(** If the product of the parts of a reduced fraction is a perfect
    power, so is each part. *)
Lemma perfect_power_parts (n d : Z) :
  n <> 0 -> 0 < d -> Z.gcd n d = 1 ->
  perfect_power (n * d) -> perfect_power n /\ perfect_power d.
Proof.
  intros Hn Hd Hco (c & k & Hk & Hprod).
  assert (Hc : 0 < Z.abs c).
  { destruct (Z.eq_dec c 0) as [-> | ?]; [| lia].
    rewrite Z.pow_0_l in Hprod by lia. nia. }
  assert (Habs : Z.abs n * d = Z.abs c ^ k).
  { rewrite <- Z.abs_pow, <- Hprod, Z.abs_mul. f_equal. lia. }
  assert (Hco1 : Z.gcd (Z.abs n) d = 1) by now rewrite Z.gcd_abs_l.
  assert (Hco2 : Z.gcd d (Z.abs n) = 1) by now rewrite Z.gcd_comm.
  assert (Habs' : d * Z.abs n = Z.abs c ^ k) by now rewrite Z.mul_comm.
  assert (Hn' : 0 < Z.abs n) by lia.
  assert (Hk' : 0 < k) by lia.
  destruct (coprime_factor_is_power _ _ _ _ Hn' Hd Hc Hk' Hco1 Habs)
    as (u & Hu & Eu).
  destruct (coprime_factor_is_power _ _ _ _ Hd Hn' Hc Hk' Hco2 Habs')
    as (v & Hv & Ev).
  split; [| exists v, k; split; trivial].
  destruct (Z.lt_ge_cases n 0) as [Hneg | Hpos].
  - destruct (Z.Even_or_Odd k) as [He | Ho].
    + pose proof (Z.pow_even_nonneg c k He). nia.
    + exists (- u), k. split; [trivial |].
      rewrite Z.pow_opp_odd by trivial. lia.
  - exists u, k. split; [trivial | lia].
Qed.

(** C8. For every canonical [Rational], [is_perfect_power] gives the
    same answer with the hint as without it. *)
Theorem is_perfect_power_hint_irrelevant (r : rational_class) :
  is_canonical r = Ret true ->
  is_perfect_power r true = is_perfect_power r false.
Proof.
  intros Hcan. apply is_canonical_iff in Hcan as [Hden Hco].
  unfold is_perfect_power.
  destruct (Z.eqb_spec (get_num r) 0) as [E0 | N0]; [reflexivity |].
  destruct (get_num r =? 1); [reflexivity |].
  cbn [negb].
  destruct (mpz_perfect_power_p (get_num r * get_den r)) eqn:Hprod.
  - apply mpz_perfect_power_p_iff in Hprod.
    assert (Hpos : 0 < get_den r) by lia.
    destruct (perfect_power_parts _ _ N0 Hpos Hco Hprod) as [Hn Hd].
    apply mpz_perfect_power_p_iff in Hn, Hd. rewrite Hn, Hd.
    now destruct (mpz_cmpabs (get_num r) (get_den r) >? 0).
  - destruct (mpz_cmpabs (get_num r) (get_den r) >? 0);
      [destruct (mpz_perfect_power_p (get_den r))
      | destruct (mpz_perfect_power_p (get_num r))]; reflexivity.
Qed.

Lemma is_perfect_power_hint_irrelevant_witness :
  is_perfect_power (mpq 4 9) true = is_perfect_power (mpq 4 9) false.
Proof. apply (is_perfect_power_hint_irrelevant (mpq 4 9)). reflexivity. Defined.

(** C7, as the code has it. Only the numerator 1 is delegated to the
    test of the denominator alone; for the numerator -1 the answer is
    the test of the product, that is of the negated denominator.  Both
    hold for either value of the hint. *)
Theorem is_perfect_power_unit_numerator (r : rational_class) (hint : bool) :
  is_canonical r = Ret true ->
  (get_num r = 1 ->
   is_perfect_power r hint = mpz_perfect_power_p (get_den r)) /\
  (get_num r = - 1 ->
   is_perfect_power r hint = mpz_perfect_power_p (- get_den r)).
Proof.
  intros Hcan. apply is_canonical_iff in Hcan as [Hden _].
  unfold is_perfect_power. split; intros E; rewrite E.
  - reflexivity.
  - change (-1 =? 0) with false. change (-1 =? 1) with false. cbv iota.
    replace (-1 * get_den r) with (- get_den r) by lia.
    assert (Hc : (mpz_cmpabs (-1) (get_den r) >? 0) = false).
    { unfold mpz_cmpabs. rewrite Z.sgn_neg by lia. reflexivity. }
    rewrite Hc. change (mpz_perfect_power_p (-1)) with true.
    now destruct hint.
Qed.

Lemma is_perfect_power_unit_numerator_witness :
  (get_num (mpq (- 1) 8) = 1 ->
   is_perfect_power (mpq (- 1) 8) false = mpz_perfect_power_p (get_den (mpq (- 1) 8))) /\
  (get_num (mpq (- 1) 8) = - 1 ->
   is_perfect_power (mpq (- 1) 8) false = mpz_perfect_power_p (- get_den (mpq (- 1) 8))).
Proof.
  apply (is_perfect_power_unit_numerator (mpq (- 1) 8) false). reflexivity.
Defined.

(** C7 as stated fails: -1/4 is canonical with a numerator of magnitude
    1 and its denominator 4 is a perfect power, but [is_perfect_power]
    answers [false] for both values of the hint. *)
Lemma is_perfect_power_minus_quarter :
  is_canonical (mpq (- 1) 4) = Ret true /\
  Z.abs (get_num (mpq (- 1) 4)) = 1 /\
  mpz_perfect_power_p (get_den (mpq (- 1) 4)) = true /\
  is_perfect_power (mpq (- 1) 4) true = false /\
  is_perfect_power (mpq (- 1) 4) false = false.
Proof. repeat split; reflexivity. Qed.

(** ** Rational powers *)

Lemma get_ui_fits (z : Z) : fits_ulong_p z = true -> get_ui z = z /\ 0 <= z.
Proof.
  unfold fits_ulong_p, get_ui. intros H.
  apply andb_true_iff in H as [H0 H1].
  apply Z.leb_le in H0, H1. split; [| exact H0].
  rewrite Z.abs_eq by exact H0. apply Z.mod_small. lia.
Qed.

(** [i_nth_root] on a non-negative operand. *)
Lemma i_nth_root_nonneg (a n : Z) :
  0 <= a -> 0 < n ->
  exists ok res,
    i_nth_root a n = Ret (ok, res) /\
    (ok = true <-> exists c, c ^ n = a) /\
    (ok = true -> res = iroot n a /\ res ^ n = a).
Proof.
  intros Ha Hn. unfold i_nth_root. destruct (Z.eqb_spec n 0); [lia |].
  destruct (mpz_root_defined a n Hn (or_introl Ha))
    as (rop & exact & -> & Hrop & Hex & Hpow).
  cbn [mbind Result_bind]. exists exact, rop.
  split; [reflexivity |]. split; [exact Hex |].
  intros E. split; [| auto].
  rewrite Hrop. destruct (Z.eq_dec a 0) as [-> | ?].
  - change (Z.sgn 0 * iroot n (Z.abs 0)) with 0. symmetry.
    rewrite <- (Z.pow_0_l n) at 1 by lia. apply iroot_of_power; lia.
  - rewrite Z.sgn_pos, Z.abs_eq by lia. lia.
Qed.

(** C10. Whenever the denominator of the exponent does not fit an
    [unsigned long], [powrat] throws the runtime error of [rpowrat],
    whichever operand of the product is evaluated first; its message is
    none of those of the errors the specification lists. *)
Theorem powrat_den_does_not_fit (assertions : bool) (this other : rational_class) :
  fits_ulong_p (get_den other) = false ->
  powrat assertions this other
    = Throw "powrat: den of 'exp' does not fit ulong." /\
  powrat_right_first assertions this other
    = Throw "powrat: den of 'exp' does not fit ulong." /\
  ~ In "powrat: den of 'exp' does not fit ulong." listed_errors.
Proof.
  intros H. unfold powrat, powrat_right_first, rpowrat.
  cbn [mpq_neg get_den]. rewrite H. cbn [negb mbind Result_bind].
  repeat split.
  intros Hin. repeat (destruct Hin as [Hin | Hin]; [discriminate |]).
  exact Hin.
Qed.

Lemma powrat_den_does_not_fit_witness :
  powrat true (mpq 2 3) (mpq 1 (2 ^ 64))
    = Throw "powrat: den of 'exp' does not fit ulong." /\
  powrat_right_first true (mpq 2 3) (mpq 1 (2 ^ 64))
    = Throw "powrat: den of 'exp' does not fit ulong." /\
  ~ In "powrat: den of 'exp' does not fit ulong." listed_errors.
Proof.
  apply (powrat_den_does_not_fit true (mpq 2 3) (mpq 1 (2 ^ 64))).
  reflexivity.
Defined.

(** The exponent of the surd is a proper reduced fraction, so
    [from_mpq] stores it as a [Rational]. *)
Lemma surd_exponent_canonical (assertions : bool) (e : rational_class) :
  is_canonical e = Ret true ->
  let r := get_num e mod get_den e in
  0 <= r < get_den e /\
  from_mpq assertions (mpq r (get_den e)) = Ret (Rational (mpq r (get_den e))).
Proof.
  intros Hcan r. apply is_canonical_iff in Hcan as [Hden Hco].
  split; [apply Z.mod_pos_bound; lia |].
  unfold from_mpq; cbn [get_den get_num].
  destruct (Z.eqb_spec (get_den e) 1); [lia |].
  apply Rational_ctor_canonical, is_canonical_iff; cbn [get_den get_num].
  split; [lia |]. unfold r. rewrite Z.gcd_mod, Z.gcd_comm by lia. exact Hco.
Qed.





(** ** Arithmetic of real numbers in the model *)

Lemma reduce_zero (d : Z) : d <> 0 -> reduce (mpq 0 d) = mpq 0 1.
Proof.
  intros Hd. unfold reduce; cbn [get_num get_den].
  rewrite Z.gcd_0_l, Z.div_0_l by lia.
  destruct (Z.lt_ge_cases d 0).
  - rewrite Z.abs_neq by lia.
    replace (d / - d) with (-1)
      by (apply Z.div_unique_exact; lia).
    reflexivity.
  - rewrite Z.abs_eq, Z.div_same by lia. reflexivity.
Qed.


Lemma mulnum_real (u v : Number) :
  imaginary_part u = mpq 0 1 -> imaginary_part v = mpq 0 1 ->
  get_den (real_part u) <> 0 -> get_den (real_part v) <> 0 ->
  mulnum u v = number_of_mpq (mpq_mul (real_part u) (real_part v)).
Proof.
  intros Hu Hv Du Dv. unfold mulnum. rewrite Hu, Hv.
  destruct (real_part u) as [un ud], (real_part v) as [vn vd].
  cbn [get_num get_den] in *.
  assert (E1 : mpq_mul (mpq 0 1) (mpq 0 1) = mpq 0 1) by reflexivity.
  assert (E2 : mpq_mul (mpq un ud) (mpq 0 1) = mpq 0 1).
  { unfold mpq_mul; cbn [get_num get_den].
    rewrite Z.mul_0_r, Z.mul_1_r. now apply reduce_zero. }
  assert (E3 : mpq_mul (mpq 0 1) (mpq vn vd) = mpq 0 1).
  { unfold mpq_mul; cbn [get_num get_den].
    rewrite Z.mul_0_l, Z.mul_1_l. now apply reduce_zero. }
  rewrite E1, E2, E3.
  change (mpq_add (mpq 0 1) (mpq 0 1)) with (mpq 0 1).
  unfold number_of_parts; cbn [get_num]. change (0 =? 0) with true. cbv iota.
  f_equal. unfold mpq_sub, mpq_neg, mpq_add, mpq_mul; cbn [get_num get_den].
  set (X := reduce (mpq (un * vn) (ud * vd))).
  replace (mpq (get_num X * 1 + - 0 * get_den X) (get_den X * 1)) with X.
  - apply reduce_idempotent. cbn [get_den]. nia.
  - destruct X as [xn xd]; cbn [get_num get_den]. f_equal; lia.
Qed.

(** C5. When the base has no exact root of the degree [den] of the
    exponent, [rpowrat] floor-divides the numerator of the exponent by
    [den] into [q] and [r] with [0 <= r < den] and returns [base^q]
    times the surd [base^(r/den)] kept in the dictionary under the key
    [base]; when [den = 2] and the base is negative the coefficient is
    [base^q] times the imaginary unit and the surd is kept under the
    positive key [-base]. *)
Theorem rpowrat_surd_decomposition (assertions : bool)
    (e : rational_class) (base : Z) :
  is_canonical e = Ret true ->
  fits_ulong_p (get_den e) = true ->
  (exists res, i_nth_root (Z.abs base) (get_den e) = Ret (false, res)) ->
  let q := get_num e / get_den e in
  let r := get_num e mod get_den e in
  get_num e = q * get_den e + r /\
  0 <= r < get_den e /\
  from_mpq assertions (mpq r (get_den e)) = Ret (Rational (mpq r (get_den e))) /\
  rpowrat assertions e base =
    Ret (if (base <? 0) && (get_den e =? 2)
         then Mul_from_dict (mulnum (powint base q) I)
                [(Num (Integer (- base)), Num (Rational (mpq r (get_den e))))]
         else Mul_from_dict (powint base q)
                [(Num (Integer base), Num (Rational (mpq r (get_den e))))]).
Proof.
  intros Hcan Hfit [res Hroot] q r.
  pose proof Hcan as Hcan'.
  apply is_canonical_iff in Hcan' as [Hden Hco].
  destruct (get_ui_fits _ Hfit) as [Hui _].
  assert (Hno : ~ (exists a, a ^ get_den e = Z.abs base)).
  { destruct (i_nth_root_nonneg (Z.abs base) (get_den e))
      as (ok & res' & E & Hok & _); [lia | lia |].
    intros Hex. apply Hok in Hex. congruence. }
  assert (Hdm : get_num e = q * get_den e + r).
  { unfold q, r. rewrite (Z.mul_comm _ (get_den e)). apply Z.div_mod. lia. }
  destruct (surd_exponent_canonical assertions e Hcan) as [Hr Hsurd].
  fold r in Hr, Hsurd.
  split; [exact Hdm |]. split; [exact Hr |]. split; [exact Hsurd |].
  assert (Hfall : rpowrat_surd assertions e base =
    Ret (if (base <? 0) && (get_den e =? 2)
         then Mul_from_dict (mulnum (powint base q) I)
                [(Num (Integer (- base)), Num (Rational (mpq r (get_den e))))]
         else Mul_from_dict (powint base q)
                [(Num (Integer base), Num (Rational (mpq r (get_den e))))])).
  { unfold rpowrat_surd, mpz_fdiv_qr.
    destruct (Z.eqb_spec (get_den e) 0); [lia |].
    cbn [mbind Result_bind]. fold q r.
    destruct ((base <? 0) && (get_den e =? 2)).
    - destruct (Z.eqb_spec base (-1)) as [-> | _]; cbn [negb].
      + exfalso. apply Hno. exists 1. rewrite Z.pow_1_l by lia. reflexivity.
      + rewrite Hsurd. reflexivity.
    - rewrite Hsurd. reflexivity. }
  unfold rpowrat. rewrite Hfit, Hui. cbn [negb].
  destruct (Z.ltb_spec base 0).
  - rewrite Z.abs_neq in Hroot by lia. rewrite Hroot.
    cbn [mbind Result_bind]. exact Hfall.
  - rewrite Z.abs_eq in Hroot by lia. rewrite Hroot.
    cbn [mbind Result_bind]. exact Hfall.
Qed.

Lemma rpowrat_surd_decomposition_witness :
  let q := get_num (mpq 3 2) / get_den (mpq 3 2) in
  let r := get_num (mpq 3 2) mod get_den (mpq 3 2) in
  get_num (mpq 3 2) = q * get_den (mpq 3 2) + r /\
  0 <= r < get_den (mpq 3 2) /\
  from_mpq true (mpq r (get_den (mpq 3 2)))
    = Ret (Rational (mpq r (get_den (mpq 3 2)))) /\
  rpowrat true (mpq 3 2) (- 2) =
    Ret (if (- 2 <? 0) && (get_den (mpq 3 2) =? 2)
         then Mul_from_dict (mulnum (powint (- 2) q) I)
                [(Num (Integer (- - 2)), Num (Rational (mpq r (get_den (mpq 3 2)))))]
         else Mul_from_dict (powint (- 2) q)
                [(Num (Integer (- 2)), Num (Rational (mpq r (get_den (mpq 3 2)))))]).
Proof.
  apply (rpowrat_surd_decomposition true (mpq 3 2) (- 2)).
  - reflexivity.
  - reflexivity.
  - exists 1. reflexivity.
Defined.

Lemma powint_nonneg_exponent (b n : Z) : 0 <= n -> powint b n = Integer (b ^ n).
Proof.
  intros Hn. unfold powint. destruct (Z.leb_spec 0 n); [reflexivity | lia].
Qed.


Lemma powers_coprime (a b k : Z) :
  0 <= k -> Z.gcd a b = 1 -> Z.gcd (a ^ k) (b ^ k) = 1.
Proof.
  intros Hk Hco. apply Z.coprime_pow_l; [exact Hk |].
  apply Z.coprime_pow_r; [exact Hk | exact Hco].
Qed.


(** The start of [rpowrat] on the negative of a perfect power: the root
    of the negated base is exact and is [a]. *)
Lemma rpowrat_negative_exact (assertions : bool) (e : rational_class) (a : Z) :
  is_canonical e = Ret true ->
  fits_ulong_p (get_den e) = true ->
  0 < a ->
  rpowrat assertions e (- a ^ get_den e) =
    if get_den e mod 2 =? 0
    then Ret (Num (mulnum (I_pow (get_num e)) (powint a (get_num e))))
    else Ret (neg (Num (powint a (get_num e)))).
Proof.
  intros Hcan Hfit Ha. apply is_canonical_iff in Hcan as [Hden _].
  destruct (get_ui_fits _ Hfit) as [Hui _].
  assert (Hp : 0 < a ^ get_den e) by (apply Z.pow_pos_nonneg; lia).
  unfold rpowrat. rewrite Hfit, Hui. cbn [negb].
  destruct (Z.ltb_spec (- a ^ get_den e) 0); [| lia].
  rewrite Z.opp_involutive.
  destruct (i_nth_root_nonneg (a ^ get_den e) (get_den e))
    as (ok & res & -> & Hok & Hres); [lia | lia |].
  cbn [mbind Result_bind].
  assert (E : ok = true) by (apply Hok; eauto). subst ok.
  destruct (Hres eq_refl) as [-> _]. rewrite iroot_of_power by lia.
  reflexivity.
Qed.






End RationalFacts.

(** * Properties of the generated matcher *)

Section MatcherFacts.

Import MatchPy.

Lemma size_cons_ge1 (b : Basic) (d : Deque) : (size (b :: d) >=? 1) = true.
Proof. unfold size. rewrite Z.geb_leb. apply Z.leb_le. simpl length. lia. Qed.

Lemma size_cons_ne0 (b : Basic) (d : Deque) : (size (b :: d) =? 0) = false.
Proof. unfold size. apply Z.eqb_neq. simpl length. lia. Qed.

(** Only the symbol [x] itself is structurally equal to [x]. *)
Lemma eq_x_iff (b : Basic) : __eq__ b x = true <-> b = x.
Proof.
  unfold x, symbol. destruct b as [n | i | t args]; simpl.
  - rewrite String.eqb_eq. split; congruence.
  - split; discriminate.
  - split; discriminate.
Qed.

(** Binding a name that is still free succeeds. *)
Lemma try_add_variable_fresh (name : string) (v : Basic) :
  try_add_variable ∅ name v = (0, <[name := v]> ∅).
Proof. unfold try_add_variable. now rewrite lookup_empty. Qed.

(** ** Rollback *)

Lemma state2219_restores (subjects subjects2 : Deque) (subst0 : Substitution)
    (result : generator) :
  fst (state2219 subjects subjects2 subst0 result) = subjects2.
Proof.
  unfold state2219. destruct (size subjects2 >=? 1); [| reflexivity].
  destruct subjects2 as [| tmp4 rest]; [reflexivity |]. cbn [pop_front].
  destruct (try_add_variable subst0 "i2" tmp4) as [rc subst1]. reflexivity.
Qed.

Lemma state2218_restores (subjects subjects2 : Deque) (subst0 : Substitution)
    (result : generator) :
  fst (state2218 subjects subjects2 subst0 result) = subjects2.
Proof.
  unfold state2218.
  destruct ((size subjects2 >=? 1) && _); [| reflexivity].
  destruct subjects2 as [| tmp3 rest]; [reflexivity |]. cbn [pop_front].
  pose proof (state2219_restores subjects rest subst0 result) as H.
  destruct (state2219 subjects rest subst0 result) as [q g].
  simpl in H. subst q. reflexivity.
Qed.

Lemma state2217_restores (subjects : Deque) (subst0 : Substitution)
    (result : generator) :
  fst (state2217 subjects subst0 result) = subjects.
Proof.
  unfold state2217.
  destruct ((size subjects >=? 1) && _); [| reflexivity].
  destruct subjects as [| tmp1 rest]; [reflexivity |]. cbn [pop_front].
  destruct (state2218 rest (get_deque tmp1) subst0 result) as [q g].
  reflexivity.
Qed.

(** C9. Every block of [match_root] hands back the queue it popped from
    exactly as it received it, whatever happened inside: the nested
    queue after states 2219 and 2218, the outer queue after state 2217,
    and at the [return] the outer queue holds the subject alone, as
    after seeding. *)
Theorem match_root_queues_restored :
  (forall subjects subjects2 subst0 result,
     fst (state2219 subjects subjects2 subst0 result) = subjects2) /\
  (forall subjects subjects2 subst0 result,
     fst (state2218 subjects subjects2 subst0 result) = subjects2) /\
  (forall subjects subst0 result,
     fst (state2217 subjects subst0 result) = subjects) /\
  (forall subject, fst (match_root_run subject) = push_front [] subject).
Proof.
  split; [exact state2219_restores |].
  split; [exact state2218_restores |].
  split; [exact state2217_restores |].
  intros subject. unfold match_root_run. apply state2217_restores.
Qed.

(** ** What the tree accepts *)

Lemma match_root_pow_x (e : Basic) :
  match_root (pow x e) = [(0, {["w" := e]})].
Proof.
  unfold match_root, match_root_run, state2217, push_front.
  rewrite size_cons_ge1. cbn [at0 head pow is_a_Pow andb pop_front get_deque].
  unfold state2218. rewrite size_cons_ge1. cbn [at0 head].
  rewrite (proj2 (eq_x_iff x) eq_refl). cbn [andb pop_front].
  unfold state2219. rewrite size_cons_ge1. cbn [pop_front].
  rewrite try_add_variable_fresh. change (0 =? 0) with true. cbv iota.
  unfold state2220. change (size [] =? 0) with true. cbv iota.
  rewrite lookup_insert_eq, insert_empty. reflexivity.
Qed.

Lemma match_root_other (s : Basic) :
  (forall e, s <> pow x e) -> match_root s = [].
Proof.
  intros Hs. unfold match_root, match_root_run, state2217, push_front.
  rewrite size_cons_ge1. cbn [at0 head andb].
  destruct s as [n | i | t args]; try reflexivity.
  destruct t; try reflexivity.
  cbn [is_a_Pow pop_front get_deque].
  unfold state2218.
  destruct args as [| b rest]; [reflexivity |].
  rewrite size_cons_ge1. cbn [at0 head andb].
  destruct (__eq__ b x) eqn:Hb; [| reflexivity].
  apply eq_x_iff in Hb. subst b. cbn [pop_front].
  unfold state2219.
  destruct rest as [| e rest]; [reflexivity |].
  rewrite size_cons_ge1. cbn [pop_front].
  rewrite try_add_variable_fresh. change (0 =? 0) with true. cbv iota.
  unfold state2220.
  destruct rest as [| e2 rest].
  - exfalso. apply (Hs e). reflexivity.
  - rewrite size_cons_ne0. reflexivity.
Qed.

(** C4. The tree for [x**w] yields, for the power of [x] by any
    exponent [e], exactly one result, with pattern 0 and [w] bound to
    [e]; for every subject that is not such a power, among them
    [x + y] and [y**2], it yields nothing. *)
Theorem match_root_x_pow_w :
  (forall e, match_root (pow x e) = [(0, {["w" := e]})]) /\
  (forall s, (forall e, s <> pow x e) -> match_root s = []) /\
  match_root (add x y) = [] /\
  match_root (pow y (integer 2)) = [].
Proof.
  split; [exact match_root_pow_x |].
  split; [exact match_root_other |].
  split; apply match_root_other; intros e; discriminate.
Qed.

Lemma match_root_x_pow_w_witness :
  match_root (Compound POW [x; integer 2; integer 3]) = [].
Proof.
  apply (proj1 (proj2 match_root_x_pow_w)). intros e. discriminate.
Defined.

End MatcherFacts.

(** * Further properties of the canonical rational *)

Section RationalMoreFacts.

Import SymEngine.

(** ** Uniqueness of the reduced form *)

Lemma reduced_unique (a b : rational_class) :
  0 < get_den a -> 0 < get_den b ->
  Z.gcd (get_num a) (get_den a) = 1 ->
  Z.gcd (get_num b) (get_den b) = 1 ->
  get_num a * get_den b = get_num b * get_den a ->
  a = b.
Proof.
  destruct a as [p q], b as [p' q']; cbn [get_num get_den].
  intros Hq Hq' Hco Hco' Hx.
  assert (H1 : (q | q')).
  { apply (Z.gauss q p); [exists p'; lia | now rewrite Z.gcd_comm]. }
  assert (H2 : (q' | q)).
  { apply (Z.gauss q' p'); [exists p; lia | now rewrite Z.gcd_comm]. }
  assert (E : q = q') by (apply Z.divide_antisym_nonneg; trivial; lia).
  subst q'. f_equal. nia.
Qed.

Lemma reduce_eq_iff (n d n' d' : Z) :
  d <> 0 -> d' <> 0 ->
  reduce (mpq n d) = reduce (mpq n' d') <-> n * d' = n' * d.
Proof.
  intros Hd Hd'.
  pose proof (reduce_value (mpq n d) Hd) as V.
  pose proof (reduce_value (mpq n' d') Hd') as V'.
  pose proof (reduce_den_pos (mpq n d) Hd) as P.
  pose proof (reduce_den_pos (mpq n' d') Hd') as P'.
  cbn [get_num get_den] in V, V'.
  split.
  - intros E. rewrite <- E in V', P'.
    set (r := reduce (mpq n d)) in *.
    apply (Z.mul_cancel_r _ _ (get_den r)); [lia |].
    transitivity (get_num r * d * d'); [rewrite V; ring |].
    transitivity (get_num r * d' * d); [ring | rewrite V'; ring].
  - intros Hx. apply reduced_unique; trivial.
    + now apply reduce_coprime.
    + now apply reduce_coprime.
    + set (r := reduce (mpq n d)) in *. set (r' := reduce (mpq n' d')) in *.
      apply (Z.mul_cancel_r _ _ (d * d')); [nia |].
      transitivity (get_num r * d * (get_den r' * d')); [ring |].
      rewrite V.
      transitivity (get_num r' * d' * (get_den r * d)); [| ring].
      rewrite V'.
      transitivity (n * d' * (get_den r * get_den r')); [ring |].
      rewrite Hx. ring.
Qed.

Lemma number_of_mpq_inj (q q' : rational_class) :
  number_of_mpq q = number_of_mpq q' -> q = q'.
Proof.
  unfold number_of_mpq. destruct q as [n d], q' as [n' d'].
  cbn [get_num get_den].
  destruct (Z.eqb_spec d 1), (Z.eqb_spec d' 1); intros E;
    try discriminate; injection E; intros; subst; congruence.
Qed.

(** What [from_two_ints] computes for a non-zero denominator. *)
Lemma from_two_ints_value (assertions : bool) (n d : Z) :
  d <> 0 ->
  from_two_ints assertions n d = Ret (number_of_mpq (reduce (mpq n d))) /\
  from_two_ints_long assertions n d = Ret (number_of_mpq (reduce (mpq n d))).
Proof.
  intros Hd. set (q := reduce (mpq n d)).
  assert (Hpos : 0 < get_den q) by (apply reduce_den_pos; trivial).
  assert (Hco : Z.gcd (get_num q) (get_den q) = 1)
    by (apply reduce_coprime; trivial).
  assert (Hfm : from_mpq assertions q = Ret (number_of_mpq q)).
  { unfold from_mpq, number_of_mpq, integer.
    destruct (Z.eqb_spec (get_den q) 1); [reflexivity |].
    apply Rational_ctor_canonical, is_canonical_iff. split; [lia | trivial]. }
  unfold from_two_ints, from_two_ints_long, canonicalize; cbn [get_den].
  destruct (Z.eqb_spec d 0); [lia |]. cbn [mbind Result_bind].
  fold q. now rewrite Hfm.
Qed.

(** ** Construction: failure, integral results, equal values *)

(** [from_two_ints] throws its division-by-zero error exactly for a zero
    denominator and never aborts, in a release build as in a debug
    build: the constructor's assertion never fails and GMP is never
    asked to divide by zero.  Both overloads behave alike. *)
Theorem from_two_ints_outcome (assertions : bool) (n d : Z) :
  (from_two_ints assertions n d = Throw "Rational: Division by zero."
   <-> d = 0) /\
  (forall f, from_two_ints assertions n d <> Abort f) /\
  from_two_ints_long assertions n d = from_two_ints assertions n d.
Proof.
  destruct (Z.eq_dec d 0) as [-> | Hd].
  - split; [split; trivial |]. split; [intros f; discriminate | reflexivity].
  - destruct (from_two_ints_value assertions n d Hd) as [H1 H2].
    rewrite H1, H2.
    split; [split; [discriminate | contradiction] |].
    split; [intros f; discriminate | reflexivity].
Qed.

(** [from_two_ints n d] is the [Integer] [z] exactly when [n = z * d]:
    an integral quotient is never returned as a [Rational], and a
    non-integral one never as an [Integer]. *)
Theorem from_two_ints_integer_iff (assertions : bool) (n d z : Z) :
  d <> 0 ->
  from_two_ints assertions n d = Ret (Integer z) <-> n = z * d.
Proof.
  intros Hd. destruct (from_two_ints_value assertions n d Hd) as [-> _].
  split.
  - intros E. injection E as E. unfold number_of_mpq in E.
    pose proof (reduce_value (mpq n d) Hd) as V. cbn [get_num get_den] in V.
    destruct (Z.eqb_spec (get_den (reduce (mpq n d))) 1) as [E1 | ?];
      [| discriminate].
    injection E as E. rewrite E, E1 in V. lia.
  - intros ->. f_equal.
    assert (E : reduce (mpq (z * d) d) = reduce (mpq z 1))
      by (apply reduce_eq_iff; lia).
    rewrite E, reduce_fixed; cbn [get_num get_den]; try lia.
    + reflexivity.
    + apply Z.gcd_1_r.
Qed.

Lemma from_two_ints_integer_iff_witness :
  from_two_ints true 12 (- 4) = Ret (Integer (- 3)) <-> 12 = - 3 * - 4.
Proof. apply (from_two_ints_integer_iff true 12 (- 4) (- 3)). lia. Defined.

(** Two calls of [from_two_ints] return the same number exactly when the
    two quotients are equal as fractions: the canonical form is a unique
    representative, whatever common factor or sign the arguments
    carry. *)
Theorem from_two_ints_equal_iff (assertions : bool) (n d n' d' : Z) :
  d <> 0 -> d' <> 0 ->
  from_two_ints assertions n d = from_two_ints assertions n' d'
  <-> n * d' = n' * d.
Proof.
  intros Hd Hd'.
  destruct (from_two_ints_value assertions n d Hd) as [-> _].
  destruct (from_two_ints_value assertions n' d' Hd') as [-> _].
  rewrite <- (reduce_eq_iff n d n' d' Hd Hd'). split.
  - intros E. injection E as E. now apply number_of_mpq_inj.
  - now intros ->.
Qed.

Lemma from_two_ints_equal_iff_witness :
  from_two_ints true 6 (- 4) = from_two_ints true (- 9) 6
  <-> 6 * 6 = - 9 * - 4.
Proof. apply (from_two_ints_equal_iff true 6 (- 4) (- 9) 6); lia. Defined.

(** Round trip: the parts [get_num_den] reads from a canonical
    [Rational] are its numerator and denominator, and handing them back
    to [from_two_ints] rebuilds the same [Rational]. *)
Theorem get_num_den_round_trip (assertions : bool) (r : rational_class) :
  is_canonical r = Ret true ->
  get_num_den r = (Integer (get_num r), Integer (get_den r)) /\
  from_two_ints assertions (get_num r) (get_den r) = Ret (Rational r).
Proof.
  intros Hcan. apply is_canonical_iff in Hcan as [Hden Hco].
  split; [reflexivity |].
  destruct (from_two_ints_value assertions (get_num r) (get_den r)) as [-> _];
    [lia |].
  replace (mpq (get_num r) (get_den r)) with r by now destruct r.
  rewrite reduce_fixed by (trivial; lia).
  unfold number_of_mpq. destruct (Z.eqb_spec (get_den r) 1); [lia | reflexivity].
Qed.

Lemma get_num_den_round_trip_witness :
  get_num_den (mpq (- 3) 2)
    = (Integer (get_num (mpq (- 3) 2)), Integer (get_den (mpq (- 3) 2))) /\
  from_two_ints true (get_num (mpq (- 3) 2)) (get_den (mpq (- 3) 2))
    = Ret (Rational (mpq (- 3) 2)).
Proof. apply (get_num_den_round_trip true (mpq (- 3) 2)). reflexivity. Defined.

(** ** Equality, order and hash *)

Lemma mpq_equal_iff (a b : rational_class) : mpq_equal a b = true <-> a = b.
Proof.
  unfold mpq_equal. destruct a as [p q], b as [p' q']; cbn [get_num get_den].
  rewrite andb_true_iff, !Z.eqb_eq. split; [intros [-> ->] | intros E];
    [reflexivity | injection E; auto].
Qed.

Lemma canonical_not_integral (a : rational_class) (z : Z) :
  is_canonical a = Ret true -> get_num a <> z * get_den a.
Proof.
  intros Hcan E. apply is_canonical_iff in Hcan as [Hden Hco].
  assert (Hd : (get_den a | 1)).
  { rewrite <- Hco. apply Z.gcd_greatest; [exists z; exact E | exists 1; lia]. }
  apply Z.divide_1_r_nonneg in Hd; lia.
Qed.

(** On canonical fractions the structural [__eq__] is equality of
    values; against an [Integer] it is always false, and rightly so: a
    canonical [Rational] never has an integral value. *)
Theorem eq_is_value_equality (a b : rational_class) :
  is_canonical a = Ret true ->
  is_canonical b = Ret true ->
  (__eq__ a (Num (Rational b)) = true
   <-> get_num a * get_den b = get_num b * get_den a) /\
  (forall z, __eq__ a (Num (Integer z)) = false /\
             get_num a <> z * get_den a).
Proof.
  intros Ha Hb. split.
  - cbn [__eq__]. rewrite mpq_equal_iff.
    apply is_canonical_iff in Ha as [Hda Hca].
    apply is_canonical_iff in Hb as [Hdb Hcb].
    split; [now intros -> |].
    intros Hx. apply reduced_unique; trivial; lia.
  - intros z. split; [reflexivity | now apply canonical_not_integral].
Qed.

Lemma eq_is_value_equality_witness :
  (__eq__ (mpq 1 2) (Num (Rational (mpq 2 3))) = true
   <-> get_num (mpq 1 2) * get_den (mpq 2 3)
       = get_num (mpq 2 3) * get_den (mpq 1 2)) /\
  (forall z, __eq__ (mpq 1 2) (Num (Integer z)) = false /\
             get_num (mpq 1 2) <> z * get_den (mpq 1 2)).
Proof. apply (eq_is_value_equality (mpq 1 2) (mpq 2 3)); reflexivity. Defined.

(** Between canonical [Rational]s [compare] returns the sign of the
    difference of the two values, 0 only for equal fractions, and
    swapping the operands negates the result. *)
Theorem compare_is_sign_of_difference (a b : rational_class) :
  is_canonical a = Ret true ->
  is_canonical b = Ret true ->
  compare a (Num (Rational b))
    = Ret (Z.sgn (get_num a * get_den b - get_num b * get_den a)) /\
  compare b (Num (Rational a))
    = Ret (- Z.sgn (get_num a * get_den b - get_num b * get_den a)) /\
  (compare a (Num (Rational b)) = Ret 0 <-> a = b).
Proof.
  intros Ha Hb.
  apply is_canonical_iff in Ha as [Hda Hca].
  apply is_canonical_iff in Hb as [Hdb Hcb].
  cbn [compare]. unfold mpq_cmp.
  set (x := get_num a * get_den b - get_num b * get_den a).
  replace (get_num b * get_den a - get_num a * get_den b) with (- x)
    by (unfold x; ring).
  assert (Hz : x = 0 <-> a = b).
  { split; [| intros ->; unfold x; ring].
    intros E. apply reduced_unique; trivial; unfold x in E; lia. }
  destruct (mpq_equal a b) eqn:Eab.
  - apply mpq_equal_iff in Eab.
    assert (Eba : mpq_equal b a = true) by (now apply mpq_equal_iff).
    rewrite Eba. apply Hz in Eab as Hx. rewrite Hx. simpl. tauto.
  - assert (Nab : a <> b)
      by (intros E; apply mpq_equal_iff in E; congruence).
    assert (Eba : mpq_equal b a = false).
    { destruct (mpq_equal b a) eqn:E; trivial.
      apply mpq_equal_iff in E. congruence. }
    rewrite Eba. rewrite Z.sgn_opp.
    assert (Hx : x <> 0) by tauto.
    destruct (Z.lt_total x 0) as [Hn | [? | Hp]]; [| contradiction |].
    + rewrite (Z.sgn_neg x Hn). simpl. repeat split; try discriminate.
      intros; contradiction.
    + rewrite (Z.sgn_pos x Hp). simpl. repeat split; try discriminate.
      intros; contradiction.
Qed.

Lemma compare_is_sign_of_difference_witness :
  compare (mpq 1 2) (Num (Rational (mpq 2 3)))
    = Ret (Z.sgn (get_num (mpq 1 2) * get_den (mpq 2 3)
                  - get_num (mpq 2 3) * get_den (mpq 1 2))) /\
  compare (mpq 2 3) (Num (Rational (mpq 1 2)))
    = Ret (- Z.sgn (get_num (mpq 1 2) * get_den (mpq 2 3)
                    - get_num (mpq 2 3) * get_den (mpq 1 2))) /\
  (compare (mpq 1 2) (Num (Rational (mpq 2 3))) = Ret 0
   <-> mpq 1 2 = mpq 2 3).
Proof.
  apply (compare_is_sign_of_difference (mpq 1 2) (mpq 2 3)); reflexivity.
Defined.

(** [compare] is transitive on fractions with positive denominators. *)
Theorem compare_transitive (a b c : rational_class) :
  0 < get_den a -> 0 < get_den b -> 0 < get_den c ->
  compare a (Num (Rational b)) = Ret (- 1) ->
  compare b (Num (Rational c)) = Ret (- 1) ->
  compare a (Num (Rational c)) = Ret (- 1).
Proof.
  intros Ha Hb Hc. cbn [compare]. unfold mpq_cmp.
  intros Hab Hbc.
  assert (Lab : get_num a * get_den b < get_num b * get_den a).
  { destruct (mpq_equal a b); [discriminate |].
    destruct (Z.ltb_spec (Z.sgn (get_num a * get_den b - get_num b * get_den a)) 0)
      as [H | H]; [| discriminate].
    apply Z.sgn_neg_iff in H. lia. }
  assert (Lbc : get_num b * get_den c < get_num c * get_den b).
  { destruct (mpq_equal b c); [discriminate |].
    destruct (Z.ltb_spec (Z.sgn (get_num b * get_den c - get_num c * get_den b)) 0)
      as [H | H]; [| discriminate].
    apply Z.sgn_neg_iff in H. lia. }
  assert (Lac : get_num a * get_den c < get_num c * get_den a).
  { apply (Z.mul_lt_mono_pos_r (get_den b)); [exact Hb |].
    apply Z.lt_trans with (get_num b * get_den a * get_den c).
    - replace (get_num a * get_den c * get_den b)
        with (get_num a * get_den b * get_den c) by ring.
      apply Z.mul_lt_mono_pos_r; trivial.
    - replace (get_num b * get_den a * get_den c)
        with (get_num b * get_den c * get_den a) by ring.
      replace (get_num c * get_den a * get_den b)
        with (get_num c * get_den b * get_den a) by ring.
      apply Z.mul_lt_mono_pos_r; trivial. }
  destruct (mpq_equal a c) eqn:E.
  - apply mpq_equal_iff in E. subst c. lia.
  - destruct (Z.ltb_spec (Z.sgn (get_num a * get_den c - get_num c * get_den a)) 0)
      as [H | H]; [reflexivity |].
    assert (Z.sgn (get_num a * get_den c - get_num c * get_den a) = -1)
      by (apply Z.sgn_neg; lia).
    lia.
Qed.

Lemma compare_transitive_witness :
  compare (mpq 1 3) (Num (Rational (mpq 2 3))) = Ret (- 1).
Proof.
  apply (compare_transitive (mpq 1 3) (mpq 1 2) (mpq 2 3)); reflexivity.
Defined.

(** Against an [Integer] [compare] of a canonical [Rational] returns the
    sign of the difference of the values and never 0; any operand that
    is neither a [Rational] nor an [Integer] makes it throw. *)
Theorem compare_with_integer (a : rational_class) (z : Z) :
  is_canonical a = Ret true ->
  compare a (Num (Integer z)) = Ret (Z.sgn (get_num a - z * get_den a)) /\
  compare a (Num (Integer z)) <> Ret 0 /\
  (forall re im,
     compare a (Num (Complex re im)) = Throw "unhandled comparison of Rational") /\
  (forall coef dict,
     compare a (Mul_from_dict coef dict) = Throw "unhandled comparison of Rational") /\
  (forall u v,
     compare a (Mul u v) = Throw "unhandled comparison of Rational").
Proof.
  intros Ha. pose proof (canonical_not_integral a z Ha) as Hne.
  cbn [compare]. unfold mpq_cmp_z.
  set (x := get_num a - z * get_den a).
  assert (Hx : x <> 0) by (unfold x; lia).
  assert (E : (if Z.sgn x <? 0 then -1 else 1) = Z.sgn x).
  { destruct (Z.lt_total x 0) as [Hn | [? | Hp]]; [| contradiction |].
    - now rewrite (Z.sgn_neg x Hn).
    - now rewrite (Z.sgn_pos x Hp). }
  rewrite E. split; [reflexivity |]. split; [| repeat split].
  intros H. injection H as H. apply -> Z.sgn_null_iff in H. exact (Hx H).
Qed.

Lemma compare_with_integer_witness :
  compare (mpq (- 3) 2) (Num (Integer (- 1)))
    = Ret (Z.sgn (get_num (mpq (- 3) 2) - - 1 * get_den (mpq (- 3) 2))) /\
  compare (mpq (- 3) 2) (Num (Integer (- 1))) <> Ret 0 /\
  (forall re im,
     compare (mpq (- 3) 2) (Num (Complex re im))
       = Throw "unhandled comparison of Rational") /\
  (forall coef dict,
     compare (mpq (- 3) 2) (Mul_from_dict coef dict)
       = Throw "unhandled comparison of Rational") /\
  (forall u v,
     compare (mpq (- 3) 2) (Mul u v) = Throw "unhandled comparison of Rational").
Proof. apply (compare_with_integer (mpq (- 3) 2) (- 1)). reflexivity. Defined.

(** [__hash__] agrees on equal [Rational]s but is not injective: only
    63 bits of each part are hashed, so a canonical [Rational] with a
    positive numerator shares its hash with another canonical
    [Rational] that [__eq__] tells apart, whatever the type tag and the
    mixing function are. *)
Theorem hash_consistent_not_injective (RATIONAL : Z) (hash_combine : Z -> Z -> Z)
    (r : rational_class) :
  is_canonical r = Ret true ->
  0 < get_num r ->
  (forall s, __eq__ r (Num (Rational s)) = true ->
             __hash__ RATIONAL hash_combine s = __hash__ RATIONAL hash_combine r) /\
  let r' := mpq (get_num r + get_den r * 2 ^ 63) (get_den r) in
  is_canonical r' = Ret true /\
  __eq__ r (Num (Rational r')) = false /\
  __hash__ RATIONAL hash_combine r' = __hash__ RATIONAL hash_combine r.
Proof.
  intros Hcan Hnum. apply is_canonical_iff in Hcan as [Hden Hco].
  split.
  { intros s Hs. cbn [__eq__] in Hs. apply mpq_equal_iff in Hs. now subst s. }
  intros r'. split; [| split].
  - apply is_canonical_iff. unfold r'; cbn [get_num get_den].
    split; [exact Hden |].
    rewrite Z.gcd_comm, Z.mul_comm, Z.gcd_add_mult_diag_r, Z.gcd_comm.
    exact Hco.
  - cbn [__eq__]. unfold mpq_equal, r'; cbn [get_num get_den].
    destruct (Z.eqb_spec (get_num r) (get_num r + get_den r * 2 ^ 63));
      [| reflexivity].
    assert (0 < get_den r * 2 ^ 63) by (apply Z.mul_pos_pos; lia). lia.
  - unfold __hash__, r'; cbn [get_num get_den]. do 2 f_equal.
    unfold get_si.
    assert (0 < get_den r * 2 ^ 63) by (apply Z.mul_pos_pos; lia).
    destruct (Z.leb_spec 0 (get_num r + get_den r * 2 ^ 63)); [| lia].
    destruct (Z.leb_spec 0 (get_num r)); [| lia].
    apply Z_mod_plus_full.
Qed.

Lemma hash_consistent_not_injective_witness :
  (forall s, __eq__ (mpq 5 7) (Num (Rational s)) = true ->
             __hash__ 13 Z.add s = __hash__ 13 Z.add (mpq 5 7)) /\
  let r' := mpq (get_num (mpq 5 7) + get_den (mpq 5 7) * 2 ^ 63)
                (get_den (mpq 5 7)) in
  is_canonical r' = Ret true /\
  __eq__ (mpq 5 7) (Num (Rational r')) = false /\
  __hash__ 13 Z.add r' = __hash__ 13 Z.add (mpq 5 7).
Proof.
  apply (hash_consistent_not_injective 13 Z.add (mpq 5 7)); reflexivity.
Defined.

(** ** What the perfect-power test decides *)

Lemma coprime_product_power (n d c k : Z) :
  n <> 0 -> 0 < d -> Z.gcd n d = 1 -> 1 < k -> n * d = c ^ k ->
  exists a b, 0 < b /\ n = a ^ k /\ d = b ^ k.
Proof.
  intros Hn Hd Hco Hk Hprod.
  assert (Hc : 0 < Z.abs c).
  { destruct (Z.eq_dec c 0) as [-> | ?]; [| lia].
    rewrite Z.pow_0_l in Hprod by lia. nia. }
  assert (Habs : Z.abs n * d = Z.abs c ^ k).
  { rewrite <- Z.abs_pow, <- Hprod, Z.abs_mul. f_equal. lia. }
  assert (Hco1 : Z.gcd (Z.abs n) d = 1) by now rewrite Z.gcd_abs_l.
  assert (Hco2 : Z.gcd d (Z.abs n) = 1) by now rewrite Z.gcd_comm.
  assert (Habs' : d * Z.abs n = Z.abs c ^ k) by now rewrite Z.mul_comm.
  assert (Hn' : 0 < Z.abs n) by lia.
  assert (Hk' : 0 < k) by lia.
  destruct (coprime_factor_is_power _ _ _ _ Hn' Hd Hc Hk' Hco1 Habs)
    as (u & Hu & Eu).
  destruct (coprime_factor_is_power _ _ _ _ Hd Hn' Hc Hk' Hco2 Habs')
    as (v & Hv & Ev).
  destruct (Z.lt_ge_cases n 0) as [Hneg | Hpos].
  - destruct (Z.Even_or_Odd k) as [He | Ho].
    + pose proof (Z.pow_even_nonneg c k He). nia.
    + exists (- u), v. rewrite Z.pow_opp_odd by trivial.
      repeat split; trivial. lia.
  - exists u, v. repeat split; trivial. lia.
Qed.

Lemma is_perfect_power_is_product_test (r : rational_class) (hint : bool) :
  is_canonical r = Ret true ->
  get_num r <> 1 ->
  is_perfect_power r hint = mpz_perfect_power_p (get_num r * get_den r).
Proof.
  intros Hcan N1. pose proof (canonical_not_integral r 0 Hcan) as N0.
  apply is_canonical_iff in Hcan as [Hden Hco].
  unfold is_perfect_power.
  destruct (Z.eqb_spec (get_num r) 0); [lia |].
  destruct (Z.eqb_spec (get_num r) 1); [contradiction |].
  destruct hint; cbn [negb]; [reflexivity |].
  destruct (mpz_perfect_power_p (get_num r * get_den r)) eqn:Hprod.
  - apply mpz_perfect_power_p_iff in Hprod.
    assert (Hpos : 0 < get_den r) by lia.
    assert (Hn0 : get_num r <> 0) by lia.
    destruct (perfect_power_parts _ _ Hn0 Hpos Hco Hprod) as [Hn Hd].
    apply mpz_perfect_power_p_iff in Hn, Hd. rewrite Hn, Hd.
    now destruct (mpz_cmpabs (get_num r) (get_den r) >? 0).
  - destruct (mpz_cmpabs (get_num r) (get_den r) >? 0);
      [destruct (mpz_perfect_power_p (get_den r))
      | destruct (mpz_perfect_power_p (get_num r))]; reflexivity.
Qed.

(** [is_perfect_power] answers [true] exactly for the canonical
    [Rational]s that are a [k]-th power of a fraction for some
    [k >= 2]: numerator and denominator are [k]-th powers for one and
    the same [k].  The hint has no part in it. *)
Theorem is_perfect_power_correct (r : rational_class) (hint : bool) :
  is_canonical r = Ret true ->
  is_perfect_power r hint = true <->
  exists a b k, 1 < k /\ 0 < b /\ get_num r = a ^ k /\ get_den r = b ^ k.
Proof.
  intros Hcan. pose proof (canonical_not_integral r 0 Hcan) as N0.
  pose proof Hcan as Hcan'. apply is_canonical_iff in Hcan' as [Hden Hco].
  destruct (Z.eq_dec (get_num r) 1) as [E1 | N1].
  - unfold is_perfect_power. rewrite E1. cbn [Z.eqb Pos.eqb].
    rewrite mpz_perfect_power_p_iff. split.
    + intros (c & k & Hk & Hc). exists 1, (Z.abs c), k.
      assert (Habs : Z.abs c ^ k = get_den r)
        by (rewrite <- Z.abs_pow, <- Hc; lia).
      repeat split; trivial.
      * destruct (Z.eq_dec c 0) as [-> | ?]; [| lia].
        rewrite Z.pow_0_l in Hc by lia. lia.
      * rewrite Z.pow_1_l; lia.
      * congruence.
    + intros (a & b & k & Hk & _ & _ & Hb). exists b, k. tauto.
  - rewrite (is_perfect_power_is_product_test r hint Hcan N1).
    rewrite mpz_perfect_power_p_iff. split.
    + intros (c & k & Hk & Hc).
      destruct (coprime_product_power (get_num r) (get_den r) c k)
        as (a & b & Hb & Ea & Eb); trivial; try lia.
      exists a, b, k. tauto.
    + intros (a & b & k & Hk & _ & Ea & Eb). exists (a * b), k.
      split; [exact Hk |]. rewrite Z.pow_mul_l. congruence.
Qed.

Lemma is_perfect_power_correct_witness :
  is_perfect_power (mpq (- 8) 27) false = true <->
  exists a b k, 1 < k /\ 0 < b /\
    get_num (mpq (- 8) 27) = a ^ k /\ get_den (mpq (- 8) 27) = b ^ k.
Proof. apply (is_perfect_power_correct (mpq (- 8) 27) false). reflexivity. Defined.

(** ** Roots: round trip and failure modes *)

Lemma pow_gt_1 (d n : Z) : 1 < d -> 0 < n -> 1 < d ^ n.
Proof.
  intros Hd Hn.
  assert (H : d ^ 1 <= d ^ n) by (apply Z.pow_le_mono_r; lia).
  rewrite Z.pow_1_r in H. lia.
Qed.

(** Round trip: [nth_root] undoes raising both parts of a canonical
    [Rational] to the [n]-th power, for an odd degree or a non-negative
    numerator; the power is canonical too. *)
Theorem nth_root_of_power (assertions : bool) (q : rational_class)
    (the_rat : option Number) (n : Z) :
  is_canonical q = Ret true ->
  1 <= n ->
  0 <= get_num q \/ Z.odd n = true ->
  is_canonical (mpq (get_num q ^ n) (get_den q ^ n)) = Ret true /\
  nth_root assertions (mpq (get_num q ^ n) (get_den q ^ n)) the_rat n
    = Ret (true, Some (Rational q)).
Proof.
  intros Hcan Hn Hdom. pose proof Hcan as Hcan'.
  apply is_canonical_iff in Hcan' as [Hden Hco].
  destruct q as [p d]; cbn [get_num get_den] in *.
  split.
  { apply is_canonical_iff; cbn [get_num get_den].
    split; [apply pow_gt_1; lia | apply powers_coprime; [lia | exact Hco]]. }
  unfold nth_root; cbn [get_num get_den].
  destruct (Z.eqb_spec n 0); [lia |].
  assert (Hdomp : 0 <= p ^ n \/ Z.odd n = true).
  { destruct Hdom as [H | H]; [left; apply Z.pow_nonneg; exact H | now right]. }
  destruct (mpz_root_defined (p ^ n) n) as (rn & en & -> & Hrn & Hen & _);
    [lia | exact Hdomp |].
  cbn [mbind Result_bind].
  assert (En : en = true) by (apply Hen; eauto). subst en. cbn [negb].
  destruct (mpz_root_defined (d ^ n) n) as (rd & ed & -> & Hrd & Hed & _);
    [lia | left; apply Z.pow_nonneg; lia |].
  cbn [mbind Result_bind].
  assert (Ed : ed = true) by (apply Hed; eauto). subst ed. cbn [negb].
  assert (Rd : rd = d).
  { rewrite Hrd, Z.abs_eq by (apply Z.pow_nonneg; lia).
    rewrite iroot_of_power by lia.
    rewrite Z.sgn_pos by (apply Z.pow_pos_nonneg; lia). lia. }
  assert (Rn : rn = p).
  { rewrite Hrn, Z.abs_pow, iroot_of_power by lia.
    destruct (Z.lt_total p 0) as [Hneg | [-> | Hpos]].
    - destruct Hdom as [? | Hodd]; [lia |]. apply Z.odd_spec in Hodd.
      assert (Hs : p ^ n < 0).
      { replace p with (- Z.abs p) by lia. rewrite Z.pow_opp_odd by trivial.
        assert (0 < Z.abs p ^ n) by (apply Z.pow_pos_nonneg; lia). lia. }
      rewrite Z.sgn_neg by exact Hs. lia.
    - rewrite Z.pow_0_l by lia. reflexivity.
    - rewrite Z.sgn_pos by (apply Z.pow_pos_nonneg; lia). lia. }
  rewrite Rn, Rd.
  rewrite (Rational_ctor_canonical assertions _ Hcan). reflexivity.
Qed.

Lemma nth_root_of_power_witness :
  is_canonical (mpq (get_num (mpq (- 2) 3) ^ 3) (get_den (mpq (- 2) 3) ^ 3))
    = Ret true /\
  nth_root true (mpq (get_num (mpq (- 2) 3) ^ 3) (get_den (mpq (- 2) 3) ^ 3))
           None 3
    = Ret (true, Some (Rational (mpq (- 2) 3))).
Proof.
  apply (nth_root_of_power true (mpq (- 2) 3) None 3).
  - reflexivity.
  - lia.
  - right. reflexivity.
Defined.

(** The failure modes of [nth_root] on a canonical [Rational], for a
    degree in the range of [unsigned long]: it throws exactly for the
    degree 0, before GMP is reached; it dies in GMP exactly for an even
    non-zero degree with a negative numerator; in every other case it
    returns. *)
Theorem nth_root_failure_modes (assertions : bool) (r : rational_class)
    (the_rat : option Number) (n : Z) :
  is_canonical r = Ret true ->
  0 <= n ->
  (nth_root assertions r the_rat n
     = Throw "i_nth_root: Can not find Zeroth root" <-> n = 0) /\
  (nth_root assertions r the_rat n = Abort GmpSqrtOfNegative
   <-> n <> 0 /\ Z.even n = true /\ get_num r < 0) /\
  ((exists ret out, nth_root assertions r the_rat n = Ret (ret, out))
   <-> n <> 0 /\ (0 <= get_num r \/ Z.odd n = true)).
Proof.
  intros Hcan Hn.
  destruct (Z.eq_dec n 0) as [-> | N0].
  { unfold nth_root. cbn [Z.eqb].
    split; [tauto |]. split; split; try discriminate; try tauto.
    intros (ret & out & H). discriminate. }
  destruct (Z.odd n) eqn:Hodd.
  - destruct (nth_root_where_defined assertions r the_rat n Hcan)
      as (ret & out & E & _); [lia | now right |].
    rewrite E. rewrite <- Z.negb_odd, Hodd. cbn [negb].
    split; [split; [discriminate | contradiction] |].
    split; [split; [discriminate | intros (_ & H & _); discriminate] |].
    split; [tauto | eauto].
  - destruct (Z.lt_ge_cases (get_num r) 0) as [Hneg | Hpos].
    + assert (He : Z.even n = true) by (rewrite <- Z.negb_odd, Hodd; reflexivity).
      rewrite (nth_root_negative_even assertions r the_rat n Hneg N0 He).
      split; [split; [discriminate | contradiction] |].
      split; [tauto |].
      split; [intros (ret & out & H); discriminate |].
      intros (_ & [H | H]); [lia | discriminate].
    + destruct (nth_root_where_defined assertions r the_rat n Hcan)
        as (ret & out & E & _); [lia | now left |].
      rewrite E.
      split; [split; [discriminate | contradiction] |].
      split; [split; [discriminate | intros (_ & _ & H); lia] |].
      split; [tauto | eauto].
Qed.

Lemma nth_root_failure_modes_witness :
  (nth_root true (mpq (- 1) 4) None 2
     = Throw "i_nth_root: Can not find Zeroth root" <-> 2 = 0) /\
  (nth_root true (mpq (- 1) 4) None 2 = Abort GmpSqrtOfNegative
   <-> 2 <> 0 /\ Z.even 2 = true /\ get_num (mpq (- 1) 4) < 0) /\
  ((exists ret out, nth_root true (mpq (- 1) 4) None 2 = Ret (ret, out))
   <-> 2 <> 0 /\ (0 <= get_num (mpq (- 1) 4) \/ Z.odd 2 = true)).
Proof.
  apply (nth_root_failure_modes true (mpq (- 1) 4) None 2); [reflexivity | lia].
Defined.

(** ** Exact roots of a negative base *)

Lemma reduce_integer (z : Z) : reduce (mpq z 1) = mpq z 1.
Proof. apply reduce_fixed; cbn [get_num get_den]; [lia | apply Z.gcd_1_r]. Qed.

Lemma neg_integer (p : Z) : neg (Num (Integer p)) = Num (Integer (- p)).
Proof.
  unfold neg, mul. f_equal.
  rewrite mulnum_real; cbn [real_part imaginary_part get_den]; trivial; try lia.
  unfold mpq_mul; cbn [get_num get_den].
  change (1 * 1) with 1. rewrite reduce_integer.
  unfold number_of_mpq; cbn [get_num get_den].
  change (1 =? 1) with true. cbv iota. f_equal.
Qed.

Lemma mulnum_imaginary (s p : Z) :
  s * p <> 0 ->
  mulnum (Complex (mpq 0 1) (mpq s 1)) (Integer p)
  = Complex (mpq 0 1) (mpq (s * p) 1).
Proof.
  intros Hsp. unfold mulnum; cbn [real_part imaginary_part].
  assert (E1 : mpq_mul (mpq 0 1) (mpq p 1) = mpq 0 1) by reflexivity.
  assert (E2 : mpq_mul (mpq s 1) (mpq 0 1) = mpq 0 1).
  { unfold mpq_mul; cbn [get_num get_den]. rewrite Z.mul_0_r. reflexivity. }
  assert (E3 : mpq_mul (mpq 0 1) (mpq 0 1) = mpq 0 1) by reflexivity.
  assert (E4 : mpq_mul (mpq s 1) (mpq p 1) = mpq (s * p) 1).
  { unfold mpq_mul; cbn [get_num get_den]. change (1 * 1) with 1.
    apply reduce_integer. }
  rewrite E1, E2, E3, E4.
  change (mpq_sub (mpq 0 1) (mpq 0 1)) with (mpq 0 1).
  assert (E5 : mpq_add (mpq 0 1) (mpq (s * p) 1) = mpq (s * p) 1).
  { unfold mpq_add; cbn [get_num get_den]. change (1 * 1) with 1.
    replace (0 * 1 + s * p * 1) with (s * p) by ring.
    apply reduce_integer. }
  rewrite E5. unfold number_of_parts; cbn [get_num].
  destruct (Z.eqb_spec (s * p) 0); [contradiction | reflexivity].
Qed.

(** For an odd root degree and a base that is the negative of an exact
    power [a^den], [rpowrat] returns the negated power [-(a^num)] of the
    root, for an even numerator of the exponent as for an odd one. *)
Theorem rpowrat_negative_base_odd_degree (assertions : bool)
    (e : rational_class) (a : Z) :
  is_canonical e = Ret true ->
  fits_ulong_p (get_den e) = true ->
  Z.odd (get_den e) = true ->
  0 < a -> 0 < get_num e ->
  rpowrat assertions e (- a ^ get_den e)
    = Ret (Num (Integer (- a ^ get_num e))).
Proof.
  intros Hcan Hfit Hodd Ha Hnum.
  rewrite (rpowrat_negative_exact assertions e a Hcan Hfit Ha).
  rewrite Zmod_odd, Hodd. change (1 =? 0) with false. cbv iota.
  rewrite powint_nonneg_exponent by lia. now rewrite neg_integer.
Qed.

Lemma rpowrat_negative_base_odd_degree_witness :
  rpowrat true (mpq 2 3) (- 2 ^ get_den (mpq 2 3))
    = Ret (Num (Integer (- 2 ^ get_num (mpq 2 3)))).
Proof.
  apply (rpowrat_negative_base_odd_degree true (mpq 2 3) 2);
    try reflexivity; lia.
Defined.

(** For an even root degree and a base that is the negative of an exact
    power [a^den], [rpowrat] returns a purely imaginary number: [a^num]
    times [I] when [num] is 1 modulo 4 and times [-I] otherwise. *)
Theorem rpowrat_negative_base_even_degree (assertions : bool)
    (e : rational_class) (a : Z) :
  is_canonical e = Ret true ->
  fits_ulong_p (get_den e) = true ->
  Z.even (get_den e) = true ->
  0 < a -> 0 < get_num e ->
  rpowrat assertions e (- a ^ get_den e)
    = Ret (Num (Complex (mpq 0 1)
                  (mpq ((if get_num e mod 4 =? 1 then 1 else - 1)
                        * a ^ get_num e) 1))).
Proof.
  intros Hcan Hfit Heven Ha Hnum.
  rewrite (rpowrat_negative_exact assertions e a Hcan Hfit Ha).
  rewrite Zmod_even, Heven. change (0 =? 0) with true. cbv iota.
  rewrite powint_nonneg_exponent by lia.
  apply is_canonical_iff in Hcan as [Hden Hco].
  assert (Hoddn : get_num e mod 2 = 1).
  { rewrite Zmod_even. destruct (Z.even (get_num e)) eqn:En; [| reflexivity].
    exfalso. apply Z.even_spec in En, Heven.
    destruct En as [u Eu], Heven as [v Ev].
    assert (Hd : (2 | 1)).
    { rewrite <- Hco. apply Z.gcd_greatest; [exists u | exists v]; lia. }
    apply Z.divide_1_r_nonneg in Hd; lia. }
  assert (Hp : 0 < a ^ get_num e) by (apply Z.pow_pos_nonneg; lia).
  assert (Hk : get_num e mod 4 = 1 \/ get_num e mod 4 = 3).
  { pose proof (Z.mod_pos_bound (get_num e) 4 ltac:(lia)) as Hb.
    pose proof (Z.div_mod (get_num e) 4 ltac:(lia)) as H4.
    pose proof (Z.div_mod (get_num e) 2 ltac:(lia)) as H2.
    lia. }
  do 2 f_equal. unfold I_pow, I.
  destruct Hk as [-> | ->]; cbn [Z.eqb Pos.eqb]; cbv iota;
    apply mulnum_imaginary; lia.
Qed.

Lemma rpowrat_negative_base_even_degree_witness :
  rpowrat true (mpq 3 2) (- 2 ^ get_den (mpq 3 2))
    = Ret (Num (Complex (mpq 0 1)
                  (mpq ((if get_num (mpq 3 2) mod 4 =? 1 then 1 else - 1)
                        * 2 ^ get_num (mpq 3 2)) 1))).
Proof.
  apply (rpowrat_negative_base_even_degree true (mpq 3 2) 2);
    try reflexivity; lia.
Defined.

End RationalMoreFacts.

(** * Further properties of the generated matcher *)

Section MatcherMoreFacts.

Import MatchPy.

Lemma state2220_appends (subjects subjects2 : Deque) (subst1 : Substitution)
    (result : generator) :
  exists new,
    state2220 subjects subjects2 subst1 result = (result ++ new)%list /\
    (new = [] \/ exists v, new = [(0, {["w" := v]})]).
Proof.
  unfold state2220, push_back.
  destruct (size subjects2 =? 0);
    [| exists []; split; [now rewrite app_nil_r | now left]].
  destruct (size subjects =? 0);
    [| exists []; split; [now rewrite app_nil_r | now left]].
  destruct (subst1 !! "i2") as [v |];
    [| exists []; split; [now rewrite app_nil_r | now left]].
  exists [(0, {["w" := v]})]. rewrite insert_empty. split; [reflexivity |].
  right. now exists v.
Qed.

Lemma state2219_appends (subjects subjects2 : Deque) (subst0 : Substitution)
    (result : generator) :
  exists new,
    snd (state2219 subjects subjects2 subst0 result) = (result ++ new)%list /\
    (new = [] \/ exists v, new = [(0, {["w" := v]})]).
Proof.
  unfold state2219.
  destruct (size subjects2 >=? 1);
    [| exists []; split; [now rewrite app_nil_r | now left]].
  destruct subjects2 as [| tmp4 rest];
    [exists []; split; [now rewrite app_nil_r | now left] |].
  cbn [pop_front].
  destruct (try_add_variable subst0 "i2" tmp4) as [rc subst1]. cbn [snd].
  destruct (rc =? 0);
    [apply state2220_appends
    | exists []; split; [now rewrite app_nil_r | now left]].
Qed.

Lemma state2218_appends (subjects subjects2 : Deque) (subst0 : Substitution)
    (result : generator) :
  exists new,
    snd (state2218 subjects subjects2 subst0 result) = (result ++ new)%list /\
    (new = [] \/ exists v, new = [(0, {["w" := v]})]).
Proof.
  unfold state2218.
  destruct ((size subjects2 >=? 1) && _);
    [| exists []; split; [now rewrite app_nil_r | now left]].
  destruct subjects2 as [| tmp3 rest];
    [exists []; split; [now rewrite app_nil_r | now left] |].
  cbn [pop_front].
  destruct (state2219_appends subjects rest subst0 result) as (new & E & H).
  destruct (state2219 subjects rest subst0 result) as [q g].
  cbn [snd] in *. eauto.
Qed.

(** Whatever the queue, the substitution and the results collected so
    far, the decision tree keeps the earlier results in place and order
    and appends at most one, always for pattern 0 and binding [w]
    alone; so does [match_root], which starts from no results. *)
Theorem match_root_appends_at_most_one :
  (forall subjects subst0 result,
     exists new,
       snd (state2217 subjects subst0 result) = (result ++ new)%list /\
       (new = [] \/ exists v, new = [(0, {["w" := v]})])) /\
  (forall subject,
     match_root subject = [] \/
     exists v, match_root subject = [(0, {["w" := v]})]).
Proof.
  assert (H : forall subjects subst0 result,
             exists new,
               snd (state2217 subjects subst0 result) = (result ++ new)%list /\
               (new = [] \/ exists v, new = [(0, {["w" := v]})])).
  { intros subjects subst0 result. unfold state2217.
    destruct ((size subjects >=? 1) && _);
      [| exists []; split; [now rewrite app_nil_r | now left]].
    destruct subjects as [| tmp1 rest];
      [exists []; split; [now rewrite app_nil_r | now left] |].
    cbn [pop_front].
    destruct (state2218_appends rest (get_deque tmp1) subst0 result)
      as (new & E & Hn).
    destruct (state2218 rest (get_deque tmp1) subst0 result) as [q g].
    cbn [snd] in *. eauto. }
  split; [exact H |].
  intros subject. unfold match_root, match_root_run.
  destruct (H (push_front [] subject) ∅ []) as (new & -> & Hn).
  exact Hn.
Qed.

End MatcherMoreFacts.
